(** * Weather service: ORM model, request schema and the six CRUD handlers

    A shallow embedding of [models/weather.py] and [api/weather.py].

    Python values are dynamically typed, so attribute values live in one
    sum type [value]; an ORM instance is its attribute dictionary; the
    database session is explicit state; Python exceptions are an error
    result that keeps the state reached when they were raised. *)

From Stdlib Require Import ZArith String List Lia DecimalString QArith Qcanon.
From stdpp Require Import base numbers gmap strings list sorting.

Open Scope string_scope.
Open Scope list_scope.
Open Scope Z_scope.

(** ** Python values *)

(** The scalars that travel through the service.  A timezone-aware
    [datetime] is the instant it denotes (microseconds since the epoch);
    a [float] or [Decimal] is the rational it denotes. *)
Inductive value : Type :=
| VNone
| VInt (n : Z)
| VNum (q : Qc)
| VStr (s : string)
| VDateTime (t : Z).

Global Instance value_eq_dec : EqDecision value.
Proof. solve_decision. Defined.

(** [f"{n}"] for a Python [int]. *)
Definition format_int (n : Z) : string := NilZero.string_of_int (Z.to_int n).

(** A Python [dict] with string keys, in insertion order. *)
Abbreviation pydict := (list (string * value)).

Definition keys (d : pydict) : list string := d.*1.

(** ** Exceptions *)

Inductive exn : Type :=
| HTTPException (status_code : Z) (detail : string)
| RequestValidationError (fields : list string)
| AttributeError (msg : string)
| TypeError (msg : string)
| IntegrityError (msg : string)
| DBAPIError (msg : string)
| OperationalError (msg : string)
| StaleDataError (msg : string)
| InvalidRequestError (msg : string).

(** [str(e)] *)
Definition str (e : exn) : string :=
  match e with
  | HTTPException c d => format_int c +:+ ": " +:+ d
  | RequestValidationError fs => "validation error"
  | AttributeError m | TypeError m | IntegrityError m | DBAPIError m
  | OperationalError m | StaleDataError m | InvalidRequestError m => m
  end.

Inductive result (A : Type) : Type :=
| Ok (a : A)
| Raise (e : exn).
Arguments Ok {A} a.
Arguments Raise {A} e.

(** ** The ORM model [Weather] (models/weather.py) *)

Inductive sqltype : Type :=
| DateTime (timezone : bool)
| Integer
| String_ (length : nat)
| Numeric.

Record Column : Type := mkColumn {
  name : string;
  type_ : sqltype;
  primary_key : bool;
  nullable : bool
}.

Record Model : Type := mkModel {
  __name__ : string;
  __tablename__ : string;
  columns : list Column
}.

(** The class body, column by column.  [Base] is the declarative base of
    [framework.db]; a declarative base maps the columns the class itself
    declares and brings no column of its own. *)
Definition Weather : Model :=
  {| __name__ := "Weather";
     __tablename__ := "weather_current";
     columns :=
       [ mkColumn "collection_time" (DateTime true) true false;
         mkColumn "temperature" Integer false true;
         mkColumn "temperature_min" Integer false true;
         mkColumn "temperature_max" Integer false true;
         mkColumn "humidity" Integer false true;
         mkColumn "description" (String_ 200) false true;
         mkColumn "feels_like" Integer false true;
         mkColumn "wind_speed" Numeric false true;
         mkColumn "wind_direction" Integer false true ] |}.

Definition column_names (cls : Model) : list string := name <$> columns cls.

Definition has_column (cls : Model) (k : string) : bool :=
  bool_decide (k ∈ column_names cls).

(** [cls.k] on the mapped class: the instrumented attribute of column [k],
    or Python's [AttributeError] for a name the class does not have. *)
Definition class_getattr (cls : Model) (k : string) : result Column :=
  match find (λ c, bool_decide (name c = k)) (columns cls) with
  | Some c => Ok c
  | None =>
      Raise (AttributeError
        ("type object '" +:+ __name__ cls +:+ "' has no attribute '" +:+ k +:+ "'"))
  end.

(** An instance: its attribute dictionary (column attributes and plain
    ones alike) and, once persistent, the primary key it was loaded or
    flushed under. *)
Record Instance : Type := mkInstance {
  identity_key : option value;
  __dict__ : gmap string value
}.

(** [getattr(obj, k)] for a column attribute: an attribute never assigned
    reads as [None]. *)
Definition getattr (obj : Instance) (k : string) : value :=
  default VNone (__dict__ obj !! k).

(** A row of [weather_current]: one value per column. *)
Abbreviation Row := (gmap string value).

Definition row_of (cls : Model) (d : gmap string value) : Row :=
  list_to_map ((λ k, (k, default VNone (d !! k))) <$> column_names cls).

Definition pk (r : Row) : value := default VNone (r !! "collection_time").

(** ** The request schema [WeatherCreate] (models/weather.py) *)

Module Schema.

(** One field per annotation of the class, in order; besides the field
    values pydantic records which fields the request supplied. *)
Record WeatherCreate : Type := mkWeatherCreate {
  collection_time : Z;
  temperature : option Z;
  temperature_min : option Z;
  temperature_max : option Z;
  humidity : option Z;
  description : option string;
  feels_like : option Z;
  wind_speed : option Qc;
  wind_direction : option Z;
  model_fields_set : list string
}.

Inductive annotation : Type :=
| datetime_
| Optional_int
| Optional_str
| Optional_float.

Definition model_fields : list (string * annotation) :=
  [ ("collection_time", datetime_);
    ("temperature", Optional_int);
    ("temperature_min", Optional_int);
    ("temperature_max", Optional_int);
    ("humidity", Optional_int);
    ("description", Optional_str);
    ("feels_like", Optional_int);
    ("wind_speed", Optional_float);
    ("wind_direction", Optional_int) ].

Definition of_int (x : option Z) : value := from_option VInt VNone x.
Definition of_str (x : option string) : value := from_option VStr VNone x.
Definition of_float (x : option Qc) : value := from_option VNum VNone x.

(** The field values by name, in declaration order. *)
Definition field_values (m : WeatherCreate) : pydict :=
  [ ("collection_time", VDateTime (collection_time m));
    ("temperature", of_int (temperature m));
    ("temperature_min", of_int (temperature_min m));
    ("temperature_max", of_int (temperature_max m));
    ("humidity", of_int (humidity m));
    ("description", of_str (description m));
    ("feels_like", of_int (feels_like m));
    ("wind_speed", of_float (wind_speed m));
    ("wind_direction", of_int (wind_direction m)) ].

(** [m.model_dump(exclude_unset=b)] *)
Definition model_dump (exclude_unset : bool) (m : WeatherCreate) : pydict :=
  filter (λ kv, negb exclude_unset || bool_decide (kv.1 ∈ model_fields_set m))
         (field_values m).

(** *** Validation of a request body

    A body maps each key of the JSON object to the value pydantic reads
    from its scalar: the instant of a timestamp, the integer or number of
    a numeral, a text, [None] for [null].  How a scalar is read (lax
    mode takes a Unix time for an instant, the text of a numeral for the
    numeral) is pydantic's and lies before this point; a body holds the
    outcome, and an entry of another kind than its field stands for a
    scalar that cannot be read at the field's kind.  What the schema
    itself decides is stated here: a field without default is required,
    an [Optional] field admits [null], keys that are not fields are
    ignored. *)
Definition field_ok (a : annotation) (raw : option value) : bool :=
  match a, raw with
  | datetime_, Some (VDateTime _) => true
  | datetime_, _ => false
  | _, (None | Some VNone) => true
  | Optional_int, Some (VInt _) => true
  | Optional_str, Some (VStr _) => true
  | Optional_float, Some (VNum _ | VInt _) => true
  | _, _ => false
  end.

Definition as_datetime (raw : option value) : Z :=
  match raw with Some (VDateTime t) => t | _ => 0 end.
Definition as_int (raw : option value) : option Z :=
  match raw with Some (VInt n) => Some n | _ => None end.
Definition as_str (raw : option value) : option string :=
  match raw with Some (VStr s) => Some s | _ => None end.
Definition as_float (raw : option value) : option Qc :=
  match raw with
  | Some (VNum q) => Some q
  | Some (VInt n) => Some (Q2Qc (inject_Z n))
  | _ => None
  end.

Definition model_validate (body : gmap string value) : result WeatherCreate :=
  match filter (λ fa : string * annotation, negb (field_ok fa.2 (body !! fa.1))) model_fields with
  | [] =>
      Ok {| collection_time := as_datetime (body !! "collection_time");
            temperature := as_int (body !! "temperature");
            temperature_min := as_int (body !! "temperature_min");
            temperature_max := as_int (body !! "temperature_max");
            humidity := as_int (body !! "humidity");
            description := as_str (body !! "description");
            feels_like := as_int (body !! "feels_like");
            wind_speed := as_float (body !! "wind_speed");
            wind_direction := as_int (body !! "wind_direction");
            model_fields_set :=
              filter (λ k, bool_decide (is_Some (body !! k))) (model_fields.*1) |}
  | bad => Raise (RequestValidationError (bad.*1))
  end.

(** What validation guarantees of an instance: the required field is
    among the supplied ones, and a field that was not supplied holds its
    default [None]. *)
Definition well_formed (m : WeatherCreate) : Prop :=
  "collection_time" ∈ model_fields_set m
  ∧ Forall (λ kv : string * value, kv.1 ∈ model_fields_set m ∨ kv.2 = VNone)
           (field_values m).

End Schema.

(** ** The database session (sqlalchemy.orm.Session) *)

(** The unit of work: what the session will write at the next flush. *)
Inductive change : Type :=
| Insert (d : gmap string value)
| Update (key : value) (d : gmap string value)
| Delete (key : value).

(** The database engine behind [framework.db] is not part of the sources;
    what the handlers depend on of it is taken as given:
    [stores t v] is what a column of type [t] holds once the non-null
    value [v] is written to it, [None] when the engine refuses the value
    (an integer beyond its range, a text longer than it enforces); a
    number may come back rounded, a timestamp in the zone the engine
    keeps.  [binds n] tells whether [n] can be bound as OFFSET or LIMIT.
    [complaint c] is the text of the exception a refused change raises,
    [page_complaint offset limit] that of a page whose bounds cannot be
    bound. *)
Record Engine : Type := mkEngine {
  stores : sqltype → value → option value;
  binds : Z → bool;
  complaint : change → string;
  page_complaint : Z → Z → string
}.

(** What column [c] holds once [v] is written: [None] is NULL, which a
    nullable column takes and the primary key refuses. *)
Definition column_stores (eng : Engine) (c : Column) (v : value) : option value :=
  if bool_decide (v = VNone) then (if nullable c then Some VNone else None)
  else stores eng (type_ c) v.

Fixpoint store_columns (eng : Engine) (cs : list Column) (r : Row)
    : option (list (string * value)) :=
  match cs with
  | [] => Some []
  | c :: cs' =>
      match column_stores eng c (default VNone (r !! name c)),
            store_columns eng cs' r with
      | Some v, Some rest => Some ((name c, v) :: rest)
      | _, _ => None
      end
  end.

(** The row the table holds once [r] is written, column by column;
    [None] when the engine refuses one of the values. *)
Definition store_row (eng : Engine) (cls : Model) (r : Row) : option Row :=
  list_to_map <$> store_columns eng (columns cls) r.

(** [table] holds the committed rows of [weather_current]; [txn] the rows
    as the open transaction has them once something was flushed;
    [pending] the unit of work; [faults] how the database will answer the
    statements to come, one entry per statement: [Some m] is a failure
    with message [m] (connection lost, database locked), [None] and the
    end of the list are a statement carried out; [engine] the engine the
    session is bound to. *)
Record Session : Type := mkSession {
  table : list Row;
  txn : option (list Row);
  pending : list change;
  faults : list (option string);
  engine : Engine
}.

Definition view (s : Session) : list Row := default (table s) (txn s).

(** Computations over the session that may raise; the session reached
    when an exception is raised is kept, as in Python. *)
Definition M (A : Type) : Type := Session → result A * Session.

Global Instance M_ret : MRet M := λ A a s, (Ok a, s).
Global Instance M_bind : MBind M := λ A B k m s,
  match m s with
  | (Ok a, s') => k a s'
  | (Raise e, s') => (Raise e, s')
  end.

Definition raise {A} (e : exn) : M A := λ s, (Raise e, s).
Definition lift {A} (r : result A) : M A := λ s, (r, s).
Definition gets {A} (f : Session → A) : M A := λ s, (Ok (f s), s).
Definition modify (f : Session → Session) : M unit := λ s, (Ok tt, f s).

(** [try: body / except <clauses>] with the clauses as one function. *)
Definition try_except {A} (body : M A) (except : exn → M A) : M A := λ s,
  match body s with
  | (Raise e, s') => except e s'
  | done => done
  end.

(** A statement sent to the database. *)
Definition execute : M unit := λ s,
  match faults s with
  | [] => (Ok tt, s)
  | answer :: rest =>
      let s' := {| table := table s; txn := txn s;
                   pending := pending s; faults := rest;
                   engine := engine s |} in
      match answer with
      | Some m => (Raise (OperationalError m), s')
      | None => (Ok tt, s')
      end
  end.

(** SQLAlchemy's own complaint when an UPDATE finds no row. *)
Definition no_row_matched : exn :=
  StaleDataError
    "UPDATE statement on table 'weather_current' expected to update 1 row(s); 0 were matched.".

(** One INSERT, UPDATE or DELETE against the rows of the transaction:
    the engine takes or refuses the values, and the primary key declared
    on [collection_time] has to stay unique. *)
Definition apply_change (eng : Engine) (rows : list Row) (c : change)
    : result (list Row) :=
  match c with
  | Insert d =>
      match store_row eng Weather (row_of Weather d) with
      | None => Raise (DBAPIError (complaint eng c))
      | Some r =>
          if bool_decide (pk r ∈ pk <$> rows)
          then Raise (IntegrityError (complaint eng c))
          else Ok (rows ++ [r])
      end
  | Update key d =>
      match store_row eng Weather (row_of Weather d) with
      | None => Raise (DBAPIError (complaint eng c))
      | Some r =>
          if negb (bool_decide (key ∈ pk <$> rows)) then Raise no_row_matched
          else if bool_decide (pk r ≠ key) && bool_decide (pk r ∈ pk <$> rows)
               then Raise (IntegrityError (complaint eng c))
          else Ok ((λ r0, if bool_decide (pk r0 = key) then r else r0) <$> rows)
      end
  | Delete key => Ok (filter (λ r0, pk r0 ≠ key) rows)
  end.

(** [db.flush()]: the unit of work, change by change, into the open
    transaction.  A change that fails stays pending together with those
    after it; those before it remain written in the transaction. *)
Fixpoint flush_changes (cs : list change) : M unit :=
  match cs with
  | [] => mret tt
  | c :: cs' =>
      execute;;
      rows ← gets view;
      eng ← gets engine;
      rows' ← lift (apply_change eng rows c);
      modify (λ s, {| table := table s; txn := Some rows';
                      pending := cs'; faults := faults s; engine := engine s |});;
      flush_changes cs'
  end.

Definition flush : M unit := cs ← gets pending; flush_changes cs.

(** [db.commit()] *)
Definition commit : M unit :=
  flush;;
  t ← gets txn;
  match t with
  | None => mret tt
  | Some rows =>
      execute;;
      modify (λ s, {| table := rows; txn := None;
                      pending := pending s; faults := faults s; engine := engine s |})
  end.

(** [db.rollback()] *)
Definition rollback : M unit :=
  modify (λ s, {| table := table s; txn := None; pending := []; faults := faults s; engine := engine s |}).

(** [db.add(obj)] *)
Definition add (obj : Instance) : M unit :=
  modify (λ s, {| table := table s; txn := txn s;
                  pending := pending s ++ [Insert (__dict__ obj)];
                  faults := faults s; engine := engine s |}).

(** [db.delete(obj)] *)
Definition delete (obj : Instance) : M unit :=
  match identity_key obj with
  | Some key =>
      modify (λ s, {| table := table s; txn := txn s;
                      pending := pending s ++ [Delete key];
                      faults := faults s; engine := engine s |})
  | None => raise (InvalidRequestError "Instance is not persisted")
  end.

Definition load (r : Row) : Instance :=
  {| identity_key := Some (pk r); __dict__ := r |}.

(** The column the model declares as primary key. *)
Definition Weather_primary_key : Column :=
  mkColumn "collection_time" (DateTime true) true false.

(** [db.refresh(obj)]: the column attributes are read again from the row
    whose primary key is the instance's, as the engine holds it; plain
    attributes stay. *)
Definition refresh (obj : Instance) : M Instance :=
  execute;;
  rows ← gets view;
  eng ← gets engine;
  match column_stores eng Weather_primary_key (getattr obj "collection_time") with
  | Some key =>
      match find (λ r, bool_decide (pk r = key)) rows with
      | Some r => mret {| identity_key := Some (pk r); __dict__ := r ∪ __dict__ obj |}
      | None => raise (InvalidRequestError "Could not refresh instance")
      end
  | None => raise (InvalidRequestError "Could not refresh instance")
  end.

(** A timestamp as the ORDER BY sees it. *)
Definition instant (v : value) : Z :=
  match v with VDateTime t => t | _ => 0 end.

(** [r1] may precede [r2] under [desc(col)]. *)
Definition desc (col : Column) (r1 r2 : Row) : Prop :=
  instant (default VNone (r2 !! name col)) ≤ instant (default VNone (r1 !! name col)).

Global Instance desc_dec col : RelDecision (desc col).
Proof. intros r1 r2. unfold desc. apply _. Defined.

(** [db.query(Weather).filter(col == v).first()]; the query flushes the
    unit of work before it selects. *)
Definition query_filter_first (col : Column) (v : value) : M (option Instance) :=
  flush;;
  execute;;
  rows ← gets view;
  mret (load <$> find (λ r, bool_decide (default VNone (r !! name col) = v)) rows).

(** [db.query(Weather).order_by(desc(col)).offset(offset).limit(limit).all()];
    on every path from the route [offset] and [limit] are not negative.
    The engine has to bind both. *)
Definition query_page (col : Column) (offset limit : Z) : M (list Instance) :=
  flush;;
  execute;;
  eng ← gets engine;
  if binds eng offset && binds eng limit then
    rows ← gets view;
    mret (load <$> take (Z.to_nat limit)
                     (drop (Z.to_nat offset) (merge_sort (desc col) rows)))
  else raise (DBAPIError (page_complaint eng offset limit)).

(** ** Instances: construction and attribute assignment *)

Definition set_attribute (obj : Instance) (k : string) (v : value) : Instance :=
  {| identity_key := identity_key obj; __dict__ := <[k := v]> (__dict__ obj) |}.

(** The session sees an assignment to a column attribute of a persistent
    instance: the instance's state replaces what was pending for it. *)
Fixpoint register_dirty (key : value) (d : gmap string value)
    (cs : list change) : list change :=
  match cs with
  | [] => [Update key d]
  | Update key' d' :: cs' =>
      if bool_decide (key' = key) then Update key d :: cs'
      else Update key' d' :: register_dirty key d cs'
  | c :: cs' => c :: register_dirty key d cs'
  end.

(** [setattr(obj, k, v)], also written [obj.k = v]. *)
Definition setattr (obj : Instance) (k : string) (v : value) : M Instance :=
  let obj' := set_attribute obj k v in
  match identity_key obj with
  | Some key =>
      if has_column Weather k then
        modify (λ s, {| table := table s; txn := txn s;
                        pending := register_dirty key (__dict__ obj') (pending s);
                        faults := faults s; engine := engine s |});;
        mret obj'
      else mret obj'
  | None => mret obj'
  end.

(** [for key, value in data.items(): setattr(record, key, value)] *)
Fixpoint setattr_items (record : Instance) (data : pydict) : M Instance :=
  match data with
  | [] => mret record
  | (key, v) :: data' =>
      record' ← setattr record key v;
      setattr_items record' data'
  end.

(** The constructor call [Weather] on keyword arguments: the declarative
    constructor assigns each keyword
    that names an attribute of the class and refuses any other. *)
Fixpoint init (cls : Model) (obj : Instance) (kwargs : pydict) : result Instance :=
  match kwargs with
  | [] => Ok obj
  | (k, v) :: kwargs' =>
      if has_column cls k then init cls (set_attribute obj k v) kwargs'
      else Raise (TypeError
             ("'" +:+ k +:+ "' is an invalid keyword argument for " +:+ __name__ cls))
  end.

Definition Weather_ (kwargs : pydict) : result Instance :=
  init Weather {| identity_key := None; __dict__ := ∅ |} kwargs.

(** ** The handlers (api/weather.py) *)

Definition serialize_sqlalchemy_obj (obj : Instance) : pydict :=
  (λ column, (name column, getattr obj (name column))) <$> columns Weather.

Definition internal_server_error (e : exn) : exn :=
  HTTPException 500 ("Internal server error: " +:+ str e).

Definition not_found (id : Z) : exn :=
  HTTPException 404 ("Weather with id " +:+ format_int id +:+ " not found").

(** The clauses [except HTTPException: raise] and
    [except Exception as e: db.rollback(); raise HTTPException(500, ...)]. *)
Definition except_rollback {A} (e : exn) : M A :=
  match e with
  | HTTPException _ _ => raise e
  | _ => rollback;; raise (internal_server_error e)
  end.

(** [clock i] is what the [i]-th evaluation of [datetime.now(UTC)] within
    the request returns. *)
Definition datetime_now (clock : nat → Z) (i : nat) : value := VDateTime (clock i).

Definition list_weather (page limit : Z) : M (list pydict) :=
  try_except
    (let offset := (page - 1) * limit in
     collection_time ← lift (class_getattr Weather "collection_time");
     weather_records ← query_page collection_time offset limit;
     mret (serialize_sqlalchemy_obj <$> weather_records))
    (λ e, raise (internal_server_error e)).

Definition create_record (weather_data : Schema.WeatherCreate) (clock : nat → Z)
    : M pydict :=
  try_except
    (let data := Schema.model_dump true weather_data in
     new_record ← lift (Weather_ data);
     new_record ← setattr new_record "create_date" (datetime_now clock 0);
     new_record ← setattr new_record "update_date" (datetime_now clock 1);
     add new_record;;
     commit;;
     new_record ← refresh new_record;
     mret (serialize_sqlalchemy_obj new_record))
    except_rollback.

Definition get_weather_by_id (id : Z) : M pydict :=
  try_except
    (Weather_id ← lift (class_getattr Weather "id");
     record ← query_filter_first Weather_id (VInt id);
     match record with
     | None => raise (not_found id)
     | Some record => mret (serialize_sqlalchemy_obj record)
     end)
    (λ e, match e with
          | HTTPException _ _ => raise e
          | _ => raise (internal_server_error e)
          end).

Definition update_weather_full (id : Z) (weather_data : Schema.WeatherCreate)
    (clock : nat → Z) : M pydict :=
  try_except
    (Weather_id ← lift (class_getattr Weather "id");
     record ← query_filter_first Weather_id (VInt id);
     match record with
     | None => raise (not_found id)
     | Some record =>
         let data := Schema.model_dump false weather_data in
         record ← setattr_items record data;
         record ← setattr record "update_date" (datetime_now clock 0);
         commit;;
         record ← refresh record;
         mret (serialize_sqlalchemy_obj record)
     end)
    except_rollback.

Definition update_weather_partial (id : Z) (weather_data : Schema.WeatherCreate)
    (clock : nat → Z) : M pydict :=
  try_except
    (Weather_id ← lift (class_getattr Weather "id");
     record ← query_filter_first Weather_id (VInt id);
     match record with
     | None => raise (not_found id)
     | Some record =>
         let data := Schema.model_dump true weather_data in
         record ← setattr_items record data;
         record ← setattr record "update_date" (datetime_now clock 0);
         commit;;
         record ← refresh record;
         mret (serialize_sqlalchemy_obj record)
     end)
    except_rollback.

Definition delete_weather (id : Z) : M pydict :=
  try_except
    (Weather_id ← lift (class_getattr Weather "id");
     record ← query_filter_first Weather_id (VInt id);
     match record with
     | None => raise (not_found id)
     | Some record =>
         delete record;;
         commit;;
         mret [("detail", VStr ("Weather with id " +:+ format_int id +:+ " deleted successfully"))]
     end)
    except_rollback.

(** ** The routes: what the framework does before a handler runs *)

(** [Query(default, ge=.., le=..)] on an integer query parameter. *)
Definition Query (default_ : Z) (ge le : option Z) (raw : option Z) : option Z :=
  let v := default default_ raw in
  if from_option (λ b, bool_decide (b ≤ v)) true ge
     && from_option (λ b, bool_decide (v ≤ b)) true le
  then Some v else None.

(** GET /api/v1/weather *)
Definition GET_weather (page limit : option Z) : M (list pydict) :=
  match Query 1 (Some 1) None page, Query 10 (Some 1) (Some 100) limit with
  | Some page, Some limit => list_weather page limit
  | None, Some _ => raise (RequestValidationError ["page"])
  | Some _, None => raise (RequestValidationError ["limit"])
  | None, None => raise (RequestValidationError ["page"; "limit"])
  end.

(** POST /api/v1/weather *)
Definition POST_weather (body : gmap string value) (clock : nat → Z) : M pydict :=
  weather_data ← lift (Schema.model_validate body);
  create_record weather_data clock.

(** GET /api/v1/weather/{id} *)
Definition GET_weather_id (id : Z) : M pydict := get_weather_by_id id.

(** PUT /api/v1/weather/{id} *)
Definition PUT_weather_id (id : Z) (body : gmap string value) (clock : nat → Z)
    : M pydict :=
  weather_data ← lift (Schema.model_validate body);
  update_weather_full id weather_data clock.

(** PATCH /api/v1/weather/{id} *)
Definition PATCH_weather_id (id : Z) (body : gmap string value) (clock : nat → Z)
    : M pydict :=
  weather_data ← lift (Schema.model_validate body);
  update_weather_partial id weather_data clock.

(** DELETE /api/v1/weather/{id} *)
Definition DELETE_weather_id (id : Z) : M pydict := delete_weather id.

(** The status line of the response. *)
Definition status {A} (r : result A) : Z :=
  match r with
  | Ok _ => 200
  | Raise (HTTPException c _) => c
  | Raise (RequestValidationError _) => 422
  | Raise _ => 500
  end.

(** A session with nothing pending and no transaction open, bound to
    [eng], on a database that will answer as [answers] says. *)
Definition session (eng : Engine) (rows : list Row) (answers : list (option string))
    : Session :=
  {| table := rows; txn := None; pending := []; faults := answers; engine := eng |}.

(** The engine of the examples: integers of 64 bits, in columns and as
    page bounds; every other value of a column's own kind is kept as it
    is given. *)
Definition int64 (n : Z) : bool :=
  (-9223372036854775808 <=? n) && (9223372036854775807 >=? n).

Definition engine_64 : Engine :=
  {| stores := λ t v,
       match t, v with
       | Integer, VInt n => if int64 n then Some v else None
       | DateTime _, VDateTime _ => Some v
       | String_ _, VStr _ => Some v
       | Numeric, VNum _ => Some v
       | _, _ => None
       end;
     binds := int64;
     complaint := λ c, "the database refuses the change";
     page_complaint := λ offset limit, "integer out of range" |}.

(** A session as a request receives it, nothing pending and no
    transaction open, on a database that carries out every statement. *)
Definition fresh (rows : list Row) : Session := session engine_64 rows [].

(** What the catch-all clause makes of the [AttributeError] that
    [Weather.id] raises. *)
Definition Weather_id_error : exn :=
  internal_server_error
    (AttributeError "type object 'Weather' has no attribute 'id'").

(** The session once [db.rollback()] has run. *)
Definition rolled_back (s : Session) : Session :=
  {| table := table s; txn := None; pending := []; faults := faults s; engine := engine s |}.

(** One keyword or item assigned to an attribute dictionary. *)
Abbreviation assign :=
  (λ (d : gmap string value) (kv : string * value), <[kv.1 := kv.2]> d).

(** The rows a transaction ends with when every change of a unit of work
    is carried out, first to last. *)
Fixpoint apply_changes (eng : Engine) (rows : list Row) (cs : list change)
    : result (list Row) :=
  match cs with
  | [] => Ok rows
  | c :: cs' =>
      match apply_change eng rows c with
      | Ok rows' => apply_changes eng rows' cs'
      | Raise e => Raise e
      end
  end.

(** Exceptions of class [HTTPException], which the handlers re-raise. *)
Definition is_HTTPException (e : exn) : bool :=
  match e with HTTPException _ _ => true | _ => false end.

(** The rows of a list response; a failed request shows none. *)
Definition response_rows {A} (r : result (list A)) : list A :=
  match r with Ok rows => rows | Raise _ => [] end.

(** The attributes of the record that create builds before [db.add]:
    the supplied fields and the two stamps. *)
Definition new_record_dict (weather_data : Schema.WeatherCreate) (clock : nat → Z)
    : gmap string value :=
  <["update_date" := datetime_now clock 1]>
    (<["create_date" := datetime_now clock 0]>
       (foldl assign ∅ (Schema.model_dump true weather_data))).

(** The session once create has built its record and added it. *)
Definition with_new_record (s : Session) (weather_data : Schema.WeatherCreate)
    (clock : nat → Z) : Session :=
  {| table := table s; txn := txn s;
     pending := pending s ++ [Insert (new_record_dict weather_data clock)];
     faults := faults s; engine := engine s |}.

(** The record create works on. *)
Definition new_record (weather_data : Schema.WeatherCreate) (clock : nat → Z)
    : Instance :=
  {| identity_key := None; __dict__ := new_record_dict weather_data clock |}.

(** ** The scenario of the service's documentation

    The observation of 2025-09-19T14:00:00Z with temperature 72 and
    humidity 55, and requests made about it. *)

Definition t_14h : Z := 1758290400000000.

Definition body_14h : gmap string value :=
  list_to_map [ ("collection_time", VDateTime t_14h);
                ("temperature", VInt 72);
                ("humidity", VInt 55) ].

Definition observation_14h : Schema.WeatherCreate :=
  {| Schema.collection_time := t_14h;
     Schema.temperature := Some 72;
     Schema.temperature_min := None;
     Schema.temperature_max := None;
     Schema.humidity := Some 55;
     Schema.description := None;
     Schema.feels_like := None;
     Schema.wind_speed := None;
     Schema.wind_direction := None;
     Schema.model_fields_set := ["collection_time"; "temperature"; "humidity"] |}.

Definition row_14h : Row := list_to_map (Schema.field_values observation_14h).

(** The clock of a request made an hour later. *)
Definition clock_15h (i : nat) : Z := 1758294000000000 + Z.of_nat i.

(** PATCH bodies: humidity alone, and humidity with the primary key. *)
Definition body_humidity : gmap string value := {[ "humidity" := VInt 60 ]}.

Definition body_14h_humidity : gmap string value :=
  list_to_map [ ("collection_time", VDateTime t_14h); ("humidity", VInt 60) ].

Definition humidity_60_at_14h : Schema.WeatherCreate :=
  {| Schema.collection_time := t_14h;
     Schema.temperature := None;
     Schema.temperature_min := None;
     Schema.temperature_max := None;
     Schema.humidity := Some 60;
     Schema.description := None;
     Schema.feels_like := None;
     Schema.wind_speed := None;
     Schema.wind_direction := None;
     Schema.model_fields_set := ["collection_time"; "humidity"] |}.

(** PUT body: temperature 80, every other observation field left out. *)
Definition body_14h_temperature : gmap string value :=
  list_to_map [ ("collection_time", VDateTime t_14h); ("temperature", VInt 80) ].

(** * Properties *)

(** ** Evaluation of the monad *)

Ltac run :=
  cbv beta iota zeta delta
    [mbind M_bind mret M_ret gets modify lift raise execute view flush_changes
     commit flush rollback add refresh try_except pending faults txn table
     default from_option fresh].


Lemma bind_ok {A B} (m : M A) (k : A → M B) s a s' :
  m s = (Ok a, s') → (m ≫= k) s = k a s'.
Proof. intros H. unfold mbind, M_bind. by rewrite H. Qed.

Lemma bind_raise {A B} (m : M A) (k : A → M B) s e s' :
  m s = (Raise e, s') → (m ≫= k) s = (Raise e, s').
Proof. intros H. unfold mbind, M_bind. by rewrite H. Qed.

Lemma try_except_ok {A} (body : M A) except s a s' :
  body s = (Ok a, s') → try_except body except s = (Ok a, s').
Proof. intros H. unfold try_except. by rewrite H. Qed.

Lemma try_except_raise {A} (body : M A) except s e s' :
  body s = (Raise e, s') → try_except body except s = except e s'.
Proof. intros H. unfold try_except. by rewrite H. Qed.

Lemma bind_gets {A B} (f : Session → A) (k : A → M B) s :
  (gets f ≫= k) s = k (f s) s.
Proof. reflexivity. Qed.

Lemma bind_modify {B} (f : Session → Session) (k : unit → M B) s :
  (modify f ≫= k) s = k tt (f s).
Proof. reflexivity. Qed.

Lemma bind_lift {A B} (r : result A) (k : A → M B) s :
  (lift r ≫= k) s = match r with Ok a => k a s | Raise e => (Raise e, s) end.
Proof. by destruct r. Qed.

Lemma bind_inv_ok {A B} (m : M A) (k : A → M B) s b s' :
  (m ≫= k) s = (Ok b, s') → ∃ a s1, m s = (Ok a, s1) ∧ k a s1 = (Ok b, s').
Proof.
  unfold mbind, M_bind. destruct (m s) as [[a|e] s1]; [eauto | discriminate].
Qed.

Lemma bind_inv_raise {A B} (m : M A) (k : A → M B) s e s' :
  (m ≫= k) s = (Raise e, s') →
  m s = (Raise e, s') ∨ ∃ a s1, m s = (Ok a, s1) ∧ k a s1 = (Raise e, s').
Proof.
  unfold mbind, M_bind. destruct (m s) as [[a|e0] s1]; [eauto | intros [= <- <-]; eauto].
Qed.

Lemma try_except_inv_ok {A} (body : M A) except s a s' :
  try_except body except s = (Ok a, s') →
  body s = (Ok a, s') ∨ ∃ e s1, body s = (Raise e, s1) ∧ except e s1 = (Ok a, s').
Proof.
  unfold try_except. destruct (body s) as [[a0|e] s1]; [intros [= <- <-]; eauto | eauto].
Qed.

Lemma except_rollback_raises {A} e s :
  ∃ e', @except_rollback A e s = (Raise e', if e is HTTPException _ _ then s else rolled_back s).
Proof. destruct e; eexists; reflexivity. Qed.

(** ** The model has no attribute [id] *)

Lemma Weather_id_missing :
  class_getattr Weather "id"
  = Raise (AttributeError "type object 'Weather' has no attribute 'id'").
Proof. reflexivity. Qed.

Lemma Weather_collection_time_found :
  class_getattr Weather "collection_time"
  = Ok (mkColumn "collection_time" (DateTime true) true false).
Proof. reflexivity. Qed.

Lemma body_14h_validates : Schema.model_validate body_14h = Ok observation_14h.
Proof. vm_compute. reflexivity. Qed.

Lemma get_weather_by_id_raises id s :
  get_weather_by_id id s = (Raise Weather_id_error, s).
Proof. reflexivity. Qed.

Lemma update_weather_full_raises id weather_data clock s :
  update_weather_full id weather_data clock s = (Raise Weather_id_error, rolled_back s).
Proof. reflexivity. Qed.

Lemma update_weather_partial_raises id weather_data clock s :
  update_weather_partial id weather_data clock s = (Raise Weather_id_error, rolled_back s).
Proof. reflexivity. Qed.

Lemma delete_weather_raises id s :
  delete_weather id s = (Raise Weather_id_error, rolled_back s).
Proof. reflexivity. Qed.

(** C1: for every integer id, get-by-id, full-update, partial-update and
    delete return neither a row nor not-found: [Weather.id] raises
    [AttributeError] inside the [try], the catch-all clause turns it into
    the 500 error below, and the writing handlers roll the session back
    on the way. *)
Theorem by_id_operations_always_fail_with_500
    (id : Z) (weather_data : Schema.WeatherCreate) (clock : nat → Z) (s : Session) :
  let e := HTTPException 500
             "Internal server error: type object 'Weather' has no attribute 'id'" in
  (("id" ∉ column_names Weather)
   ∧ get_weather_by_id id s = (Raise e, s)
   ∧ update_weather_full id weather_data clock s = (Raise e, rolled_back s)
   ∧ update_weather_partial id weather_data clock s = (Raise e, rolled_back s)
   ∧ delete_weather id s = (Raise e, rolled_back s)).
Proof.
  split; [apply (bool_decide_eq_false_1 _); vm_compute; reflexivity |].
  repeat split; reflexivity.
Qed.

(** C3 (evaluation at the failing input): on an empty table no row has
    id 7, yet none of the four by-id operations answers 404; each answers
    the 500 of the missing attribute. *)
Theorem missing_id_is_answered_with_500 :
  status (get_weather_by_id 7 (fresh [])).1 = 500
  ∧ status (update_weather_full 7 observation_14h clock_15h (fresh [])).1 = 500
  ∧ status (update_weather_partial 7 observation_14h clock_15h (fresh [])).1 = 500
  ∧ status (delete_weather 7 (fresh [])).1 = 500
  ∧ (get_weather_by_id 7 (fresh [])).1 ≠ Raise (not_found 7).
Proof. repeat split; try reflexivity. vm_compute. discriminate. Qed.

(** C6 (evaluation at the failing input): PUT of temperature 80 on the
    stored observation answers 500 and leaves the row as it was, humidity
    55 included. *)
Theorem full_update_is_not_applied :
  PUT_weather_id 1 body_14h_temperature clock_15h (fresh [row_14h])
  = (Raise Weather_id_error, fresh [row_14h])
  ∧ row_14h !! "temperature" = Some (VInt 72)
  ∧ row_14h !! "humidity" = Some (VInt 55).
Proof. repeat split; vm_compute; reflexivity. Qed.

(** C7 (evaluation at the failing input): the observation is created and
    stored, and get-by-id then answers 500 instead of reading it back. *)
Theorem created_row_cannot_be_read_by_id :
  POST_weather body_14h clock_15h (fresh [])
  = (Ok (Schema.field_values observation_14h), fresh [row_14h])
  ∧ GET_weather_id 1 (fresh [row_14h]) = (Raise Weather_id_error, fresh [row_14h])
  ∧ status (GET_weather_id 1 (fresh [row_14h])).1 = 500.
Proof. repeat split; vm_compute; reflexivity. Qed.

(** C2 (counterexample): the response to creating the observation has the
    nine column keys; [id], [create_date] and [update_date] are not among
    them. *)
Lemma create_response_lacks_id_and_audit_keys :
  (create_record observation_14h clock_15h (fresh [])).1
  = Ok (Schema.field_values observation_14h)
  ∧ ¬ (∃ d, (create_record observation_14h clock_15h (fresh [])).1 = Ok d
            ∧ "id" ∈ keys d ∧ "create_date" ∈ keys d ∧ "update_date" ∈ keys d).
Proof.
  assert (H : (create_record observation_14h clock_15h (fresh [])).1
              = Ok (Schema.field_values observation_14h))
    by (vm_compute; reflexivity).
  split; [exact H |].
  intros (d & Hd & Hid & _). rewrite H in Hd. injection Hd as <-.
  revert Hid. apply (bool_decide_eq_false_1 _). vm_compute. reflexivity.
Qed.

(** C4 (counterexample): a PATCH body that leaves [collection_time] out is
    not accepted; validation refuses it before the handler runs and the
    session is untouched. *)
Lemma PATCH_without_collection_time_is_refused :
  PATCH_weather_id 1 body_humidity clock_15h (fresh [row_14h])
  = (Raise (RequestValidationError ["collection_time"]), fresh [row_14h])
  ∧ status (PATCH_weather_id 1 body_humidity clock_15h (fresh [row_14h])).1 = 422.
Proof. split; vm_compute; reflexivity. Qed.

(** C5 (counterexample): PATCH of humidity 60 on the stored observation
    changes nothing, with the mandatory [collection_time] in the body
    (answer 500) as without it (answer 422); the stored humidity stays 55
    and the following GET shows no row. *)
Lemma PATCH_humidity_is_not_applied :
  PATCH_weather_id 1 body_14h_humidity clock_15h (fresh [row_14h])
  = (Raise Weather_id_error, fresh [row_14h])
  ∧ (PATCH_weather_id 1 body_humidity clock_15h (fresh [row_14h])).2
    = fresh [row_14h]
  ∧ row_14h !! "humidity" = Some (VInt 55)
  ∧ (GET_weather_id 1 (fresh [row_14h])).1 = Raise Weather_id_error.
Proof. repeat split; vm_compute; reflexivity. Qed.

(** ** Serialization *)

Lemma serialize_keys obj :
  keys (serialize_sqlalchemy_obj obj) = column_names Weather.
Proof. reflexivity. Qed.

(** C10: a serialized row has exactly the nine declared columns as keys,
    whatever plain attributes the instance carries; [create_date] and
    [update_date] are not among them; and every row a handler returns is
    a serialized one. *)
Theorem serialized_rows_have_exactly_the_nine_columns :
  let nine := [ "collection_time"; "temperature"; "temperature_min";
                "temperature_max"; "humidity"; "description"; "feels_like";
                "wind_speed"; "wind_direction" ] in
  (∀ obj, keys (serialize_sqlalchemy_obj obj) = nine)
  ∧ ("create_date" ∉ nine) ∧ ("update_date" ∉ nine)
  ∧ (∀ page limit s ds, (list_weather page limit s).1 = Ok ds →
       Forall (λ d, keys d = nine) ds)
  ∧ (∀ weather_data clock s d,
       (create_record weather_data clock s).1 = Ok d → keys d = nine)
  ∧ (∀ id s d, (get_weather_by_id id s).1 = Ok d → keys d = nine)
  ∧ (∀ id weather_data clock s d,
       (update_weather_full id weather_data clock s).1 = Ok d → keys d = nine)
  ∧ (∀ id weather_data clock s d,
       (update_weather_partial id weather_data clock s).1 = Ok d → keys d = nine).
Proof.
  intros nine.
  split; [reflexivity |].
  split; [apply (bool_decide_eq_false_1 _); vm_compute; reflexivity |].
  split; [apply (bool_decide_eq_false_1 _); vm_compute; reflexivity |].
  split; [| split; [| repeat split]].
  - intros page limit s ds H.
    destruct (list_weather page limit s) as [r s'] eqn:E. simpl in H. subst r.
    unfold list_weather in E. apply try_except_inv_ok in E as [E | (e & s1 & _ & E)];
      [| discriminate].
    apply bind_inv_ok in E as (col & s1 & _ & E).
    apply bind_inv_ok in E as (recs & s2 & _ & E).
    injection E as <- _. apply Forall_fmap, Forall_true. intros obj. reflexivity.
  - intros weather_data clock s d H.
    destruct (create_record weather_data clock s) as [r s'] eqn:E. simpl in H. subst r.
    unfold create_record in E. apply try_except_inv_ok in E as [E | (e & s1 & _ & E)].
    + repeat (apply bind_inv_ok in E as (? & ? & _ & E)).
      injection E as <- _. reflexivity.
    + destruct (except_rollback_raises (A := pydict) e s1) as [e' He].
      rewrite He in E. discriminate.
  - intros id s d H. rewrite get_weather_by_id_raises in H. discriminate.
  - intros id weather_data clock s d H.
    rewrite update_weather_full_raises in H. discriminate.
  - intros id weather_data clock s d H.
    rewrite update_weather_partial_raises in H. discriminate.
Qed.

Lemma serialized_rows_have_exactly_the_nine_columns_witness :
  keys (Schema.field_values observation_14h)
  = [ "collection_time"; "temperature"; "temperature_min"; "temperature_max";
      "humidity"; "description"; "feels_like"; "wind_speed"; "wind_direction" ].
Proof.
  refine (proj1 (proj2 (proj2 (proj2 (proj2
            serialized_rows_have_exactly_the_nine_columns))))
          observation_14h clock_15h (fresh []) _ _).
  vm_compute. reflexivity.
Defined.

(** ** Listing *)

Global Instance desc_total col : Total (desc col).
Proof. intros r1 r2. unfold desc. lia. Qed.

Global Instance desc_trans col : Transitive (desc col).
Proof. intros r1 r2 r3. unfold desc. lia. Qed.

Lemma flush_nothing_pending s : pending s = [] → flush s = (Ok tt, s).
Proof. intros H. unfold flush, mbind, M_bind, gets. by rewrite H. Qed.

Lemma query_page_session eng col offset limit rows :
  query_page col offset limit (session eng rows [])
  = if binds eng offset && binds eng limit
    then (Ok (load <$> take (Z.to_nat limit)
                         (drop (Z.to_nat offset) (merge_sort (desc col) rows))),
          session eng rows [])
    else (Raise (DBAPIError (page_complaint eng offset limit)), session eng rows []).
Proof.
  unfold query_page.
  rewrite (bind_ok _ _ _ tt (session eng rows [])) by reflexivity.
  rewrite (bind_ok _ _ _ tt (session eng rows [])) by reflexivity.
  rewrite bind_gets. cbn [engine session].
  by destruct (binds eng offset && binds eng limit).
Qed.

Lemma list_weather_session eng page limit rows :
  binds eng ((page - 1) * limit) = true → binds eng limit = true →
  list_weather page limit (session eng rows [])
  = (Ok (serialize_sqlalchemy_obj ∘ load
           <$> take (Z.to_nat limit)
                 (drop (Z.to_nat ((page - 1) * limit))
                    (merge_sort
                       (desc (mkColumn "collection_time" (DateTime true) true false))
                       rows))),
     session eng rows []).
Proof.
  intros Hoffset Hlimit.
  unfold list_weather, try_except.
  rewrite Weather_collection_time_found, bind_lift.
  erewrite bind_ok; [| rewrite query_page_session, Hoffset, Hlimit; reflexivity].
  cbn [mret M_ret]. by rewrite list_fmap_compose.
Qed.

Lemma list_weather_unbound eng page limit rows :
  binds eng ((page - 1) * limit) && binds eng limit = false →
  list_weather page limit (session eng rows [])
  = (Raise (HTTPException 500
              ("Internal server error: "
               +:+ page_complaint eng ((page - 1) * limit) limit)),
     session eng rows []).
Proof.
  intros Hbinds.
  unfold list_weather, try_except.
  rewrite Weather_collection_time_found, bind_lift.
  erewrite bind_raise; [| rewrite query_page_session, Hbinds; reflexivity].
  reflexivity.
Qed.

(** C8 (counterexample): page 9223372036854775809 with limit 1 is within
    the route's constraints, and its offset is 2^63: on an engine that
    binds integers of 64 bits the answer is a 500 carrying the engine's
    complaint, not the empty list. *)
Lemma list_weather_fails_on_a_far_page :
  GET_weather (Some 9223372036854775809) (Some 1) (fresh [row_14h])
  = (Raise (HTTPException 500
              ("Internal server error: "
               +:+ page_complaint engine_64 9223372036854775808 1)),
     fresh [row_14h])
  ∧ status (GET_weather (Some 9223372036854775809) (Some 1) (fresh [row_14h])).1 = 500.
Proof. split; reflexivity. Qed.

(** C8 (amended): for page >= 1 and 1 <= limit <= 100 whose offset
    (page-1)*limit and limit the engine can bind, list answers with the
    stored rows sorted by [collection_time] descending and cut to the
    window from the offset of length limit: at most [limit] rows, and the
    empty list, not an error, when the window starts past the last
    row. *)
Theorem list_weather_returns_the_page
    (eng : Engine) (page limit : Z) (rows : list Row) :
  1 ≤ page → 1 ≤ limit ≤ 100 →
  binds eng ((page - 1) * limit) = true → binds eng limit = true →
  ∃ sorted window,
    Sorted (λ r1 r2, instant (pk r2) ≤ instant (pk r1)) sorted
    ∧ sorted ≡ₚ rows
    ∧ window = take (Z.to_nat limit) (drop (Z.to_nat ((page - 1) * limit)) sorted)
    ∧ list_weather page limit (session eng rows [])
      = (Ok (serialize_sqlalchemy_obj ∘ load <$> window), session eng rows [])
    ∧ (Z.of_nat (length window) ≤ limit)
    ∧ (Z.of_nat (length rows) ≤ (page - 1) * limit → window = []).
Proof.
  intros Hpage Hlimit Hbo Hbl.
  set (col := mkColumn "collection_time" (DateTime true) true false).
  exists (merge_sort (desc col) rows). eexists.
  split; [exact (Sorted_merge_sort (desc col) rows) |].
  split; [apply merge_sort_Permutation |].
  split; [reflexivity |].
  split; [| split].
  - by apply list_weather_session.
  - rewrite length_take. lia.
  - intros Hpast. apply nil_length_inv.
    rewrite length_take, length_drop, (Permutation_length (merge_sort_Permutation _ _)).
    lia.
Qed.

Lemma list_weather_returns_the_page_witness :
  ∃ sorted window,
    Sorted (λ r1 r2, instant (pk r2) ≤ instant (pk r1)) sorted
    ∧ sorted ≡ₚ [row_14h]
    ∧ window = take (Z.to_nat 10) (drop (Z.to_nat ((1 - 1) * 10)) sorted)
    ∧ list_weather 1 10 (session engine_64 [row_14h] [])
      = (Ok (serialize_sqlalchemy_obj ∘ load <$> window), session engine_64 [row_14h] [])
    ∧ (Z.of_nat (length window) ≤ 10)
    ∧ (Z.of_nat (length [row_14h]) ≤ (1 - 1) * 10 → window = []).
Proof.
  apply (list_weather_returns_the_page engine_64 1 10 [row_14h]);
    first [lia | reflexivity].
Defined.

(** ** Validated input *)

Lemma validated_well_formed body m :
  Schema.model_validate body = Ok m → Schema.well_formed m.
Proof.
  unfold Schema.model_validate.
  destruct (filter _ Schema.model_fields) as [|bad bads] eqn:Hbad; [| discriminate].
  intros [= <-].
  assert (Hset : ∀ k, k ∈ Schema.model_fields.*1 → is_Some (body !! k) →
            k ∈ filter (λ k, bool_decide (is_Some (body !! k))) (Schema.model_fields.*1)).
  { intros k Hk Hsome. apply list_elem_of_filter. split; [| done].
    by apply bool_decide_pack. }
  assert (Hct : "collection_time"
            ∈ filter (λ k, bool_decide (is_Some (body !! k))) (Schema.model_fields.*1)).
  { apply Hset; [set_solver |].
    destruct (body !! "collection_time") as [v|] eqn:Hct; [done |].
    exfalso.
    eapply (filter_nil_not_elem_of _ _ ("collection_time", Schema.datetime_) Hbad);
      [cbn; by rewrite Hct | set_solver]. }
  split; [exact Hct |].
  cbn [Schema.model_fields_set Schema.field_values].
  apply Forall_cons_2; [by left |].
  repeat apply Forall_cons_2; try apply Forall_nil_2;
    cbn [fst snd Schema.temperature Schema.temperature_min Schema.temperature_max
         Schema.humidity Schema.description Schema.feels_like Schema.wind_speed
         Schema.wind_direction].
  all: match goal with
       | |- context [?b !! ?k] =>
           destruct (b !! k) eqn:?; [left; apply Hset; [set_solver | done] | by right]
       end.
Qed.

Lemma required_field_missing body :
  body !! "collection_time" = None →
  ∃ bad, Schema.model_validate body = Raise (RequestValidationError bad)
         ∧ "collection_time" ∈ bad.
Proof.
  intros Hct. unfold Schema.model_validate.
  destruct (filter _ Schema.model_fields) as [|bad bads] eqn:Hbad.
  - exfalso.
    eapply (filter_nil_not_elem_of _ _ ("collection_time", Schema.datetime_) Hbad);
      [cbn; by rewrite Hct | set_solver].
  - eexists. split; [reflexivity |].
    rewrite <- Hbad. apply (list_elem_of_fmap_2 fst _ ("collection_time", Schema.datetime_)).
    apply list_elem_of_filter. split; [cbn; by rewrite Hct | set_solver].
Qed.

(** ** Attribute assignment *)

Lemma assign_lookup_other (l : pydict) (d : gmap string value) k :
  k ∉ keys l → foldl assign d l !! k = d !! k.
Proof.
  revert d. induction l as [|[k' v'] l IH]; intros d Hk; [done |].
  cbn in *. rewrite IH by set_solver. apply lookup_insert_ne. set_solver.
Qed.

Lemma assign_lookup (l : pydict) (d : gmap string value) k v :
  NoDup (keys l) → (k, v) ∈ l → foldl assign d l !! k = Some v.
Proof.
  revert d. induction l as [|[k' v'] l IH]; intros d Hnd Hin; [by apply elem_of_nil in Hin |].
  cbn in *. apply NoDup_cons in Hnd as [Hk' Hnd].
  apply elem_of_cons in Hin as [[= -> ->] | Hin].
  - rewrite assign_lookup_other by done. apply lookup_insert_eq.
  - by apply IH.
Qed.

Lemma init_assigns cls obj (kwargs : pydict) :
  Forall (λ kv, has_column cls kv.1 = true) kwargs →
  init cls obj kwargs
  = Ok {| identity_key := identity_key obj;
          __dict__ := foldl assign (__dict__ obj) kwargs |}.
Proof.
  revert obj. induction kwargs as [|[k v] kwargs IH]; intros obj Hall.
  - by destruct obj.
  - apply Forall_cons in Hall as [Hk Hall]. cbn in *. rewrite Hk. by rewrite IH.
Qed.

(** ** Creating a record *)

Lemma field_values_keys m : keys (Schema.field_values m) = column_names Weather.
Proof. reflexivity. Qed.

Lemma field_values_NoDup m : NoDup (keys (Schema.field_values m)).
Proof. rewrite field_values_keys. apply (bool_decide_unpack _). vm_compute. exact I. Qed.

Lemma model_dump_sublist b m : Schema.model_dump b m `sublist_of` Schema.field_values m.
Proof. apply sublist_filter. Qed.

Lemma model_dump_columns b m :
  Forall (λ kv : string * value, has_column Weather kv.1 = true) (Schema.model_dump b m).
Proof.
  apply Forall_forall. intros [k v] Hin.
  apply bool_decide_eq_true_2. rewrite <- (field_values_keys m).
  apply (list_elem_of_fmap_2 fst _ (k, v)).
  eapply elem_of_sublist; [exact Hin | apply model_dump_sublist].
Qed.

Lemma model_dump_NoDup b m : NoDup (keys (Schema.model_dump b m)).
Proof.
  eapply sublist_NoDup; [apply (field_values_NoDup m) |].
  unfold keys. apply fmap_sublist, model_dump_sublist.
Qed.

(** What the new instance holds for a column once constructed from the
    supplied fields only: the field's value, [None] where it was not
    supplied. *)
Lemma new_record_reads_fields m k v :
  Schema.well_formed m → (k, v) ∈ Schema.field_values m →
  default VNone (foldl assign ∅ (Schema.model_dump true m) !! k) = v.
Proof.
  intros [_ Hdef] Hin.
  destruct (decide (k ∈ Schema.model_fields_set m)) as [Hset | Hunset].
  - erewrite assign_lookup; [reflexivity | apply model_dump_NoDup |].
    apply list_elem_of_filter. split; [| done]. cbn. by apply bool_decide_pack.
  - rewrite assign_lookup_other.
    + rewrite lookup_empty. cbn.
      rewrite Forall_forall in Hdef.
      destruct (Hdef _ Hin) as [? | Hv]; [done | cbn in Hv; by subst].
    + intros ([k' v'] & -> & Hin')%list_elem_of_fmap.
      apply list_elem_of_filter in Hin' as [Hp _]. cbn in Hp.
      apply bool_decide_unpack in Hp. done.
Qed.

Lemma find_app_last {A} (p : A → bool) l x :
  Forall (λ y, p y = false) l → p x = true → find p (l ++ [x]) = Some x.
Proof.
  induction 1 as [|y l Hy _ IH]; intros Hx; cbn; [by rewrite Hx |].
  rewrite Hy. by apply IH.
Qed.

Lemma setattr_transient obj k v s :
  identity_key obj = None → setattr obj k v s = (Ok (set_attribute obj k v), s).
Proof. intros H. unfold setattr. by rewrite H. Qed.

(** *** What the engine makes of a row *)

Lemma column_names_NoDup : NoDup (column_names Weather).
Proof. apply (bool_decide_unpack _). vm_compute. exact I. Qed.

Lemma store_columns_keys eng cs r l :
  store_columns eng cs r = Some l → keys l = name <$> cs.
Proof.
  revert l. induction cs as [|c cs IH]; intros l; cbn.
  - by intros [= <-].
  - destruct (column_stores eng c _) as [v|]; [| discriminate].
    destruct (store_columns eng cs r) as [rest|]; [| discriminate].
    intros [= <-]. cbn. f_equal. by apply IH.
Qed.

Lemma store_columns_lookup eng cs r l c :
  store_columns eng cs r = Some l → c ∈ cs →
  ∃ v, column_stores eng c (default VNone (r !! name c)) = Some v ∧ (name c, v) ∈ l.
Proof.
  revert l. induction cs as [|c0 cs IH]; intros l; cbn.
  - intros _ Hin. by apply elem_of_nil in Hin.
  - destruct (column_stores eng c0 _) as [v0|] eqn:Hc0; [| discriminate].
    destruct (store_columns eng cs r) as [rest|]; [| discriminate].
    intros [= <-] [-> | Hin]%elem_of_cons.
    + exists v0. split; [done | apply elem_of_cons; by left].
    + destruct (IH rest eq_refl Hin) as (v & Hv & Hl).
      exists v. split; [done | apply elem_of_cons; by right].
Qed.

Lemma store_row_inv eng r r' :
  store_row eng Weather r = Some r' →
  ∃ l, r' = list_to_map l ∧ keys l = column_names Weather
       ∧ store_columns eng (columns Weather) r = Some l.
Proof.
  unfold store_row. destruct (store_columns eng (columns Weather) r) as [l|] eqn:Hl;
    [| discriminate].
  intros [= <-]. exists l. split; [done |]. split; [| done].
  by eapply store_columns_keys.
Qed.

Lemma store_row_lookup eng r r' c :
  store_row eng Weather r = Some r' → c ∈ columns Weather →
  r' !! name c = column_stores eng c (default VNone (r !! name c))
  ∧ is_Some (r' !! name c).
Proof.
  intros (l & -> & Hkeys & Hl)%store_row_inv Hc.
  destruct (store_columns_lookup eng _ r l c Hl Hc) as (v & Hv & Hin).
  assert (list_to_map l !! name c = Some v) as ->.
  { apply elem_of_list_to_map_1; [| done].
    unfold keys in Hkeys. rewrite Hkeys. apply column_names_NoDup. }
  by rewrite Hv.
Qed.

Lemma store_row_pk eng r r' :
  store_row eng Weather r = Some r' →
  column_stores eng Weather_primary_key (pk r) = Some (pk r').
Proof.
  intros Hr.
  destruct (store_row_lookup eng r r' Weather_primary_key Hr) as [Heq [v Hv]];
    [set_solver |].
  unfold pk. cbn [name Weather_primary_key] in *. rewrite <- Heq, Hv. done.
Qed.

Lemma serialize_stored key (l : pydict) (d : gmap string value) :
  keys l = column_names Weather →
  serialize_sqlalchemy_obj {| identity_key := key; __dict__ := list_to_map l ∪ d |} = l.
Proof.
  intros Hkeys. unfold serialize_sqlalchemy_obj, getattr. cbn [__dict__].
  assert (Hnd : NoDup l.*1) by (unfold keys in Hkeys; rewrite Hkeys; apply column_names_NoDup).
  transitivity ((λ k, (k, default VNone ((list_to_map l ∪ d) !! k)))
                  <$> column_names Weather).
  - unfold column_names. by rewrite <- list_fmap_compose.
  - rewrite <- Hkeys. unfold keys. rewrite <- list_fmap_compose.
    etrans; [| apply list_fmap_id]. apply list_fmap_ext. intros i [k v] Hi. cbn.
    erewrite lookup_union_Some_l; [reflexivity |].
    apply elem_of_list_to_map_1; [done | by eapply list_elem_of_lookup_2].
Qed.

Lemma serialize_load_stored eng r r' :
  store_row eng Weather r = Some r' →
  ∀ key d, serialize_sqlalchemy_obj {| identity_key := key; __dict__ := r' ∪ d |}
           = serialize_sqlalchemy_obj (load r').
Proof.
  intros (l & -> & Hkeys & _)%store_row_inv key d.
  rewrite serialize_stored by done. unfold load.
  rewrite <- (right_id_L ∅ (∪) (list_to_map l)) at 2.
  by rewrite serialize_stored.
Qed.

(** *** The steps of create *)

Lemma apply_insert eng rows d r :
  store_row eng Weather (row_of Weather d) = Some r →
  pk r ∉ pk <$> rows →
  apply_change eng rows (Insert d) = Ok (rows ++ [r]).
Proof.
  intros Hr Hfresh. unfold apply_change. rewrite Hr.
  by rewrite bool_decide_eq_false_2.
Qed.

Lemma apply_insert_duplicate eng rows d r :
  store_row eng Weather (row_of Weather d) = Some r →
  pk r ∈ pk <$> rows →
  apply_change eng rows (Insert d)
  = Raise (IntegrityError (complaint eng (Insert d))).
Proof.
  intros Hr Hdup. unfold apply_change. rewrite Hr.
  by rewrite bool_decide_eq_true_2.
Qed.

Lemma commit_single_insert eng rows d rows' :
  apply_change eng rows (Insert d) = Ok rows' →
  commit {| table := rows; txn := None; pending := [Insert d];
            faults := []; engine := eng |}
  = (Ok tt, session eng rows' []).
Proof. intros H. run. cbn [engine]. rewrite H. reflexivity. Qed.

Lemma commit_single_insert_answered eng rows answers d rows' :
  apply_change eng rows (Insert d) = Ok rows' →
  commit {| table := rows; txn := None; pending := [Insert d];
            faults := None :: None :: answers; engine := eng |}
  = (Ok tt, session eng rows' answers).
Proof. intros H. run. cbn [engine]. rewrite H. reflexivity. Qed.

Lemma refresh_last eng rows r obj :
  column_stores eng Weather_primary_key (getattr obj "collection_time") = Some (pk r) →
  pk r ∉ pk <$> rows →
  refresh obj (session eng (rows ++ [r]) [])
  = (Ok {| identity_key := Some (pk r); __dict__ := r ∪ __dict__ obj |},
     session eng (rows ++ [r]) []).
Proof.
  intros Hpk Hfresh. unfold refresh.
  rewrite (bind_ok _ _ _ tt (session eng (rows ++ [r]) [])) by reflexivity.
  rewrite !bind_gets. cbn [engine view session table txn default from_option].
  rewrite Hpk, find_app_last; [reflexivity | |].
  - apply Forall_forall. intros r0 Hr0. apply bool_decide_eq_false_2.
    intros Heq. apply Hfresh. rewrite <- Heq. by apply list_elem_of_fmap_2.
  - by apply bool_decide_eq_true_2.
Qed.

Lemma columns_read m (d : gmap string value) :
  (∀ k v, (k, v) ∈ Schema.field_values m → default VNone (d !! k) = v) →
  (λ k, (k, default VNone (d !! k))) <$> column_names Weather = Schema.field_values m.
Proof.
  intros H. change (column_names Weather) with (keys (Schema.field_values m)).
  unfold keys. rewrite <- list_fmap_compose.
  rewrite <- (list_fmap_id (Schema.field_values m)) at 2.
  apply list_fmap_ext. intros i [k v] Hi. cbn. f_equal.
  apply H. by eapply list_elem_of_lookup_2.
Qed.

Lemma row_of_field_values m d :
  (∀ k v, (k, v) ∈ Schema.field_values m → default VNone (d !! k) = v) →
  row_of Weather d = list_to_map (Schema.field_values m).
Proof. intros H. unfold row_of. f_equal. by apply columns_read. Qed.

Lemma field_values_pk m :
  pk (list_to_map (Schema.field_values m)) = VDateTime (Schema.collection_time m).
Proof. reflexivity. Qed.

Lemma new_record_dict_reads weather_data clock k v :
  Schema.well_formed weather_data → (k, v) ∈ Schema.field_values weather_data →
  default VNone (new_record_dict weather_data clock !! k) = v.
Proof.
  intros Hwf Hin. unfold new_record_dict.
  assert (Hk : k ∈ column_names Weather).
  { rewrite <- (field_values_keys weather_data).
    by apply (list_elem_of_fmap_2 fst _ (k, v)). }
  rewrite !lookup_insert_ne
    by (intros <-; revert Hk; apply (bool_decide_eq_false_1 _); by vm_compute).
  by apply new_record_reads_fields.
Qed.

Lemma new_record_dict_row weather_data clock :
  Schema.well_formed weather_data →
  row_of Weather (new_record_dict weather_data clock)
  = list_to_map (Schema.field_values weather_data).
Proof.
  intros Hwf. apply row_of_field_values. intros k v. by apply new_record_dict_reads.
Qed.

Lemma create_record_unfold weather_data clock s :
  create_record weather_data clock s
  = try_except
      (commit;;
       new_record ← refresh {| identity_key := None;
                                __dict__ := new_record_dict weather_data clock |};
       mret (serialize_sqlalchemy_obj new_record))
      except_rollback
      {| table := table s; txn := txn s;
         pending := pending s ++ [Insert (new_record_dict weather_data clock)];
         faults := faults s; engine := engine s |}.
Proof.
  unfold create_record, Weather_.
  rewrite init_assigns by apply model_dump_columns.
  unfold try_except. by rewrite bind_lift.
Qed.

Lemma create_record_stores eng body weather_data clock rows r :
  Schema.model_validate body = Ok weather_data →
  store_row eng Weather (list_to_map (Schema.field_values weather_data)) = Some r →
  pk r ∉ pk <$> rows →
  create_record weather_data clock (session eng rows [])
  = (Ok (serialize_sqlalchemy_obj (load r)), session eng (rows ++ [r]) []).
Proof.
  intros Hwf%validated_well_formed Hr Hnew.
  rewrite create_record_unfold. unfold try_except, session.
  cbn [table txn pending faults engine app].
  assert (Hrow := new_record_dict_row weather_data clock Hwf).
  erewrite bind_ok.
  2:{ eapply commit_single_insert, apply_insert; [by rewrite Hrow | done]. }
  erewrite bind_ok.
  2:{ apply refresh_last; [| done].
      rewrite <- (store_row_pk _ _ _ Hr). f_equal.
      unfold getattr. cbn [__dict__]. rewrite field_values_pk.
      apply new_record_dict_reads; [done | set_solver]. }
  cbn [mret M_ret]. by erewrite serialize_load_stored.
Qed.

(** C2 (amended): for every validated create input whose values the
    database engine takes and whose [collection_time], as the engine
    holds it, is not stored yet, on a session with nothing pending and a
    database that carries out every statement, create stores exactly one
    new row and returns it serialized in full: one key per declared
    column of the table, holding what the engine keeps of the supplied
    value, and [None] for a field the request did not supply. *)
Theorem create_record_returns_the_stored_row eng body weather_data clock rows r :
  Schema.model_validate body = Ok weather_data →
  store_row eng Weather (list_to_map (Schema.field_values weather_data)) = Some r →
  pk r ∉ pk <$> rows →
  create_record weather_data clock (session eng rows [])
  = (Ok (serialize_sqlalchemy_obj (load r)), session eng (rows ++ [r]) [])
  ∧ keys (serialize_sqlalchemy_obj (load r)) = column_names Weather
  ∧ (∀ c v, c ∈ columns Weather → (name c, v) ∈ Schema.field_values weather_data →
            r !! name c = column_stores eng c v)
  ∧ (∀ c v, c ∈ columns Weather → (name c, v) ∈ Schema.field_values weather_data →
            name c ∉ Schema.model_fields_set weather_data →
            getattr (load r) (name c) = VNone).
Proof.
  intros Hvalid Hr Hnew.
  split; [by eapply create_record_stores |]. split; [reflexivity |].
  assert (Hcol : ∀ c v, c ∈ columns Weather →
            (name c, v) ∈ Schema.field_values weather_data →
            r !! name c = column_stores eng c v).
  { intros c v Hc Hin.
    destruct (store_row_lookup eng _ r c Hr Hc) as [-> _]. f_equal.
    erewrite elem_of_list_to_map_1; [reflexivity | apply field_values_NoDup | done]. }
  split; [exact Hcol |].
  intros c v Hc Hin Hunset.
  apply validated_well_formed in Hvalid as [_ Hdef].
  rewrite Forall_forall in Hdef. destruct (Hdef _ Hin) as [? | Hv]; [done |].
  cbn in Hv. subst v.
  destruct (store_row_lookup eng _ r c Hr Hc) as [_ [v' Hv']].
  unfold getattr, load. cbn [__dict__]. rewrite Hv'.
  rewrite (Hcol c VNone Hc Hin) in Hv'. unfold column_stores in Hv'.
  rewrite bool_decide_eq_true_2 in Hv' by done.
  destruct (nullable c); by inversion Hv'.
Qed.

Lemma create_record_returns_the_stored_row_witness :
  create_record observation_14h clock_15h (session engine_64 [] [])
  = (Ok (serialize_sqlalchemy_obj (load row_14h)), session engine_64 ([] ++ [row_14h]) [])
  ∧ keys (serialize_sqlalchemy_obj (load row_14h)) = column_names Weather
  ∧ (∀ c v, c ∈ columns Weather → (name c, v) ∈ Schema.field_values observation_14h →
            row_14h !! name c = column_stores engine_64 c v)
  ∧ (∀ c v, c ∈ columns Weather → (name c, v) ∈ Schema.field_values observation_14h →
            name c ∉ Schema.model_fields_set observation_14h →
            getattr (load row_14h) (name c) = VNone).
Proof.
  apply (create_record_returns_the_stored_row engine_64 body_14h).
  - vm_compute. reflexivity.
  - vm_compute. reflexivity.
  - cbn. apply not_elem_of_nil.
Defined.

(** ** The merge step of an update *)

Lemma setattr_assigns obj k v s :
  ∃ s', setattr obj k v s = (Ok (set_attribute obj k v), s')
        ∧ table s' = table s ∧ txn s' = txn s ∧ faults s' = faults s.
Proof.
  unfold setattr.
  destruct (identity_key obj); [destruct (has_column Weather k) |];
    eexists; (split; [reflexivity | done]).
Qed.

Lemma setattr_items_assigns record (data : pydict) s :
  ∃ s', setattr_items record data s
        = (Ok {| identity_key := identity_key record;
                 __dict__ := foldl assign (__dict__ record) data |}, s')
        ∧ table s' = table s ∧ txn s' = txn s ∧ faults s' = faults s.
Proof.
  revert record s. induction data as [|[k v] data IH]; intros record s.
  - exists s. by destruct record.
  - destruct (setattr_assigns record k v s) as (s1 & Hset & Ht & Hx & Hf).
    destruct (IH (set_attribute record k v) s1) as (s2 & Hrest & Ht' & Hx' & Hf').
    exists s2. cbn [setattr_items]. erewrite bind_ok by exact Hset.
    rewrite Hrest. repeat split; congruence.
Qed.

Lemma model_dump_unset_keys m k :
  k ∉ Schema.model_fields_set m → k ∉ keys (Schema.model_dump true m).
Proof.
  intros Hunset ([k' v'] & -> & Hin)%list_elem_of_fmap.
  apply list_elem_of_filter in Hin as [Hp _]. cbn in Hp.
  by apply bool_decide_unpack in Hp.
Qed.

Lemma model_dump_set_field m k v :
  k ∈ Schema.model_fields_set m → (k, v) ∈ Schema.field_values m →
  (k, v) ∈ Schema.model_dump true m.
Proof.
  intros Hset Hin. apply list_elem_of_filter. split; [| done].
  cbn. by apply bool_decide_pack.
Qed.

(** C4 (amended): a partial-update request has to supply
    [collection_time]: a body without it is refused by validation before
    the handler runs, the session untouched.  For a validated input the
    merge step of the handler assigns the supplied [collection_time] to
    the record, over its primary key, and leaves every attribute the
    request did not supply as it was. *)
Theorem partial_update_requires_and_assigns_collection_time :
  (∀ id body clock s,
     body !! "collection_time" = None →
     ∃ bad, PATCH_weather_id id body clock s = (Raise (RequestValidationError bad), s)
            ∧ "collection_time" ∈ bad)
  ∧ (∀ body weather_data record s,
       Schema.model_validate body = Ok weather_data →
       ∃ record' s',
         setattr_items record (Schema.model_dump true weather_data) s = (Ok record', s')
         ∧ getattr record' "collection_time"
           = VDateTime (Schema.collection_time weather_data)
         ∧ ∀ k, k ∉ Schema.model_fields_set weather_data →
                __dict__ record' !! k = __dict__ record !! k).
Proof.
  split.
  - intros id body clock s Hct.
    destruct (required_field_missing body Hct) as (bad & Hbad & Hin).
    exists bad. split; [| done]. unfold PATCH_weather_id.
    erewrite bind_raise; [reflexivity |]. unfold lift. by rewrite Hbad.
  - intros body weather_data record s [Hct _]%validated_well_formed.
    destruct (setattr_items_assigns record (Schema.model_dump true weather_data) s)
      as (s' & Hrun & _).
    eexists _, s'. split; [exact Hrun |]. split.
    + unfold getattr. cbn [__dict__].
      erewrite assign_lookup; [reflexivity | apply model_dump_NoDup |].
      apply model_dump_set_field; [done | set_solver].
    + intros k Hunset. cbn [__dict__].
      by apply assign_lookup_other, model_dump_unset_keys.
Qed.

Lemma partial_update_requires_and_assigns_collection_time_witness :
  (∃ bad, PATCH_weather_id 1 body_humidity clock_15h (fresh [row_14h])
          = (Raise (RequestValidationError bad), fresh [row_14h])
          ∧ "collection_time" ∈ bad)
  ∧ (∃ record' s',
       setattr_items (load row_14h) (Schema.model_dump true observation_14h)
                     (fresh [row_14h]) = (Ok record', s')
       ∧ getattr record' "collection_time"
         = VDateTime (Schema.collection_time observation_14h)
       ∧ ∀ k, k ∉ Schema.model_fields_set observation_14h →
              __dict__ record' !! k = __dict__ (load row_14h) !! k).
Proof.
  split.
  - apply (proj1 partial_update_requires_and_assigns_collection_time).
    vm_compute. reflexivity.
  - apply (proj2 partial_update_requires_and_assigns_collection_time body_14h).
    vm_compute. reflexivity.
Defined.

(** C5 (amended): for a validated partial-update input in which, besides
    the mandatory [collection_time], exactly one observation field [f] is
    supplied, the merge step and the stamp that follows it change on the
    record that field, [collection_time] (set to the input's value) and
    the attribute [update_date]; every other attribute keeps its value. *)
Theorem partial_update_merge_changes_one_field
    body weather_data f v record clock s :
  Schema.model_validate body = Ok weather_data →
  (∀ k, k ∈ Schema.model_fields_set weather_data ↔ k = "collection_time" ∨ k = f) →
  (f, v) ∈ Schema.field_values weather_data →
  ∃ record' s',
    (record ← setattr_items record (Schema.model_dump true weather_data);
     setattr record "update_date" (datetime_now clock 0)) s = (Ok record', s')
    ∧ getattr record' f = v
    ∧ getattr record' "collection_time"
      = VDateTime (Schema.collection_time weather_data)
    ∧ getattr record' "update_date" = VDateTime (clock 0%nat)
    ∧ ∀ k, k ≠ f → k ≠ "collection_time" → k ≠ "update_date" →
           __dict__ record' !! k = __dict__ record !! k.
Proof.
  intros Hvalid Hone Hf.
  destruct (setattr_items_assigns record (Schema.model_dump true weather_data) s)
    as (s1 & Hrun & _).
  destruct (setattr_assigns
              {| identity_key := identity_key record;
                 __dict__ := foldl assign (__dict__ record)
                               (Schema.model_dump true weather_data) |}
              "update_date" (datetime_now clock 0) s1) as (s2 & Hstamp & _).
  eexists _, s2. split; [erewrite bind_ok by exact Hrun; exact Hstamp |].
  assert (Hcol : ∀ k v', (k, v') ∈ Schema.field_values weather_data →
                         k ≠ "update_date").
  { intros k v' Hin ->.
    apply (list_elem_of_fmap_2 fst) in Hin. rewrite field_values_keys in Hin.
    revert Hin. apply (bool_decide_eq_false_1 _). by vm_compute. }
  unfold getattr, set_attribute. cbn [__dict__ identity_key].
  repeat split.
  - rewrite lookup_insert_ne by (intros <-; by eapply Hcol).
    erewrite assign_lookup; [reflexivity | apply model_dump_NoDup |].
    apply model_dump_set_field; [apply Hone; by right | done].
  - rewrite lookup_insert_ne by done.
    erewrite assign_lookup; [reflexivity | apply model_dump_NoDup |].
    apply model_dump_set_field; [apply Hone; by left | set_solver].
  - by rewrite lookup_insert_eq.
  - intros k Hk1 Hk2 Hk3. rewrite lookup_insert_ne by done.
    apply assign_lookup_other, model_dump_unset_keys.
    rewrite Hone. intros [-> | ->]; done.
Qed.

Lemma partial_update_merge_changes_one_field_witness :
  ∃ record' s',
    (record ← setattr_items (load row_14h) (Schema.model_dump true humidity_60_at_14h);
     setattr record "update_date" (datetime_now clock_15h 0)) (fresh [row_14h])
    = (Ok record', s')
    ∧ getattr record' "humidity" = VInt 60
    ∧ getattr record' "collection_time"
      = VDateTime (Schema.collection_time humidity_60_at_14h)
    ∧ getattr record' "update_date" = VDateTime (clock_15h 0%nat)
    ∧ ∀ k, k ≠ "humidity" → k ≠ "collection_time" → k ≠ "update_date" →
           __dict__ record' !! k = __dict__ (load row_14h) !! k.
Proof.
  apply (partial_update_merge_changes_one_field body_14h_humidity).
  - vm_compute. reflexivity.
  - intros k. cbn. set_solver.
  - cbn. set_solver.
Defined.

(** ** Failure and rollback *)

Lemma except_rollback_wraps {A} e s :
  is_HTTPException e = false →
  @except_rollback A e s = (Raise (internal_server_error e), rolled_back s).
Proof. by destruct e. Qed.

Lemma execute_cases s :
  (∃ s', execute s = (Ok tt, s')
         ∧ table s' = table s ∧ txn s' = txn s ∧ pending s' = pending s
         ∧ engine s' = engine s)
  ∨ (∃ m s', execute s = (Raise (OperationalError m), s')
             ∧ table s' = table s ∧ txn s' = txn s ∧ pending s' = pending s
             ∧ engine s' = engine s).
Proof.
  unfold execute. destruct (faults s) as [|[m|] rest].
  - left. eexists. split; [reflexivity | done].
  - right. eexists _, _. split; [reflexivity | done].
  - left. eexists. split; [reflexivity | done].
Qed.

Lemma apply_change_raises eng rows c e :
  apply_change eng rows c = Raise e → is_HTTPException e = false.
Proof.
  unfold apply_change, no_row_matched.
  destruct c; repeat case_match; by intros [= <-].
Qed.

Lemma flush_changes_cases cs s :
  pending s = cs →
  (∃ s', flush_changes cs s = (Ok tt, s')
         ∧ table s' = table s ∧ pending s' = [] ∧ engine s' = engine s
         ∧ apply_changes (engine s) (view s) cs = Ok (view s'))
  ∨ (∃ e s', flush_changes cs s = (Raise e, s')
             ∧ is_HTTPException e = false ∧ table s' = table s).
Proof.
  revert s. induction cs as [|c cs IH]; intros s Hpending.
  - left. exists s. by repeat split.
  - cbn [flush_changes apply_changes].
    destruct (execute_cases s)
      as [(s1 & Hexec & Ht & Hx & _ & He) | (m & s1 & Hexec & Ht & _)].
    2:{ right. exists (OperationalError m), s1.
        split; [by erewrite bind_raise | done]. }
    erewrite bind_ok by exact Hexec.
    assert (Hview : view s1 = view s) by (unfold view; congruence).
    rewrite !bind_gets, bind_lift, Hview, He.
    destruct (apply_change (engine s) (view s) c) as [rows' | e] eqn:Hc.
    2:{ right. exists e, s1. split; [reflexivity | split; [| done]].
        by eapply apply_change_raises. }
    rewrite bind_modify.
    set (s2 := {| table := table s1; txn := Some rows'; pending := cs;
                  faults := faults s1; engine := engine s1 |}).
    destruct (IH s2 eq_refl)
      as [(s3 & Hrest & Ht3 & Hp3 & He3 & Hall) | (e & s3 & Hrest & He3 & Ht3)].
    + left. exists s3. split; [exact Hrest |].
      repeat split; [cbn in Ht3; congruence | done | cbn in He3; congruence |].
      cbn [engine s2] in Hall. by rewrite He in Hall.
    + right. exists e, s3. split; [exact Hrest |].
      split; [done | cbn in Ht3; congruence].
Qed.

Lemma commit_cases s :
  (∃ s', commit s = (Ok tt, s')
         ∧ txn s' = None ∧ pending s' = [] ∧ engine s' = engine s
         ∧ apply_changes (engine s) (view s) (pending s) = Ok (table s'))
  ∨ (∃ e s', commit s = (Raise e, s')
             ∧ is_HTTPException e = false ∧ table s' = table s).
Proof.
  unfold commit, flush.
  destruct (flush_changes_cases (pending s) s eq_refl)
    as [(s1 & Hflush & Ht & Hp & He & Hall) | (e & s1 & Hflush & He & Ht)].
  2:{ right. exists e, s1. split; [| done].
      erewrite bind_raise; [reflexivity |]. by rewrite bind_gets. }
  erewrite bind_ok; [| by rewrite bind_gets].
  rewrite bind_gets.
  destruct (txn s1) as [rows |] eqn:Htxn.
  - destruct (execute_cases s1)
      as [(s2 & Hexec & _ & _ & Hp2 & He2) | (m & s2 & Hexec & Ht2 & _)].
    + left. eexists. erewrite bind_ok by exact Hexec. split; [reflexivity |].
      cbn. repeat split; [congruence | congruence |].
      rewrite Hall. unfold view. by rewrite Htxn.
    + right. exists (OperationalError m), s2.
      split; [by erewrite bind_raise | split; [done | congruence]].
  - left. exists s1. split; [reflexivity |]. repeat split; [done | done | done |].
    rewrite Hall. unfold view. by rewrite Htxn.
Qed.

Lemma commit_raises s e s' :
  commit s = (Raise e, s') → is_HTTPException e = false ∧ table s' = table s.
Proof.
  intros H. destruct (commit_cases s) as [(s1 & H1 & _) | (e1 & s1 & H1 & He & Ht)];
    rewrite H in H1; [discriminate |]. by injection H1 as -> ->.
Qed.

Lemma refresh_raises obj s e s' :
  refresh obj s = (Raise e, s') → is_HTTPException e = false ∧ table s' = table s.
Proof.
  unfold refresh.
  destruct (execute_cases s) as [(s1 & Hexec & Ht & _) | (m & s1 & Hexec & Ht & _)].
  2:{ erewrite bind_raise by exact Hexec. by intros [= <- <-]. }
  erewrite bind_ok by exact Hexec. rewrite !bind_gets.
  destruct (column_stores _ _ _) as [key |]; [destruct (find _ _) |];
    intros [= <- <-]; done.
Qed.

Lemma create_record_commit_fails weather_data clock s e s2 :
  commit (with_new_record s weather_data clock) = (Raise e, s2) →
  create_record weather_data clock s
  = (Raise (HTTPException 500 ("Internal server error: " +:+ str e)), rolled_back s2)
  ∧ table (rolled_back s2) = table s.
Proof.
  intros Hcommit. destruct (commit_raises _ _ _ Hcommit) as [He Ht].
  rewrite create_record_unfold. unfold try_except. fold (with_new_record s weather_data clock).
  erewrite bind_raise by exact Hcommit.
  rewrite except_rollback_wraps by done. done.
Qed.

Lemma create_record_refresh_fails weather_data clock s s2 e s3 :
  commit (with_new_record s weather_data clock) = (Ok tt, s2) →
  refresh (new_record weather_data clock) s2 = (Raise e, s3) →
  create_record weather_data clock s
  = (Raise (HTTPException 500 ("Internal server error: " +:+ str e)), rolled_back s3)
  ∧ table (rolled_back s3) = table s2.
Proof.
  intros Hcommit Hrefresh. destruct (refresh_raises _ _ _ _ Hrefresh) as [He Ht].
  rewrite create_record_unfold. unfold try_except. fold (with_new_record s weather_data clock).
  erewrite bind_ok by exact Hcommit. fold (new_record weather_data clock).
  erewrite bind_raise by exact Hrefresh.
  rewrite except_rollback_wraps by done. done.
Qed.

(** C9 (counterexample): the INSERT and the COMMIT of the observation
    are carried out and the SELECT that reads it back fails: create
    answers 500, and the row is in the table all the same; the mutation
    is not rolled back. *)
Lemma create_answers_500_with_the_row_committed :
  create_record observation_14h clock_15h
    (session engine_64 [] [None; None; Some "connection lost"])
  = (Raise (HTTPException 500 "Internal server error: connection lost"),
     fresh [row_14h])
  ∧ row_14h ∈ table (create_record observation_14h clock_15h
                       (session engine_64 [] [None; None; Some "connection lost"])).2.
Proof.
  assert (H : create_record observation_14h clock_15h
                (session engine_64 [] [None; None; Some "connection lost"])
              = (Raise (HTTPException 500 "Internal server error: connection lost"),
                 fresh [row_14h])) by (vm_compute; reflexivity).
  split; [exact H |]. rewrite H. apply list_elem_of_singleton. reflexivity.
Qed.

(** C9 (amended): when the flush or the commit of create's new row
    fails, the error reaches the caller as a 500 wrapping the cause and
    the session has been rolled back first: no transaction open, nothing
    pending, the committed table as it was.  When the commit succeeds and
    only the read-back of the row fails, the caller gets the 500 in the
    same way and the committed table, the new row in it, stays.
    Full-update, partial-update and delete, which fail before any write,
    return their 500 after rolling the session back. *)
Theorem failed_mutation_is_reported_and_rolled_back :
  (∀ weather_data clock s e s2,
     commit (with_new_record s weather_data clock) = (Raise e, s2) →
     create_record weather_data clock s
     = (Raise (HTTPException 500 ("Internal server error: " +:+ str e)),
        rolled_back s2)
     ∧ table (rolled_back s2) = table s
     ∧ txn (rolled_back s2) = None ∧ pending (rolled_back s2) = [])
  ∧ (∀ weather_data clock s s2 e s3,
       commit (with_new_record s weather_data clock) = (Ok tt, s2) →
       refresh (new_record weather_data clock) s2 = (Raise e, s3) →
       create_record weather_data clock s
       = (Raise (HTTPException 500 ("Internal server error: " +:+ str e)),
          rolled_back s3)
       ∧ table (rolled_back s3) = table s2
       ∧ txn (rolled_back s3) = None ∧ pending (rolled_back s3) = [])
  ∧ (∀ id weather_data clock s,
       update_weather_full id weather_data clock s
       = (Raise Weather_id_error, rolled_back s)
       ∧ update_weather_partial id weather_data clock s
         = (Raise Weather_id_error, rolled_back s)
       ∧ delete_weather id s = (Raise Weather_id_error, rolled_back s)
       ∧ table (rolled_back s) = table s
       ∧ txn (rolled_back s) = None ∧ pending (rolled_back s) = []).
Proof.
  split; [| split].
  - intros weather_data clock s e s2 Hcommit.
    destruct (create_record_commit_fails _ _ _ _ _ Hcommit) as [-> Ht]. done.
  - intros weather_data clock s s2 e s3 Hcommit Hrefresh.
    destruct (create_record_refresh_fails _ _ _ _ _ _ Hcommit Hrefresh) as [-> Ht].
    done.
  - intros id weather_data clock s. repeat split.
Qed.

Lemma failed_mutation_is_reported_and_rolled_back_witness :
  ∃ e s2,
    commit (with_new_record (fresh [row_14h]) observation_14h clock_15h) = (Raise e, s2)
    ∧ create_record observation_14h clock_15h (fresh [row_14h])
      = (Raise (HTTPException 500 ("Internal server error: " +:+ str e)),
         rolled_back s2)
    ∧ table (rolled_back s2) = table (fresh [row_14h])
    ∧ txn (rolled_back s2) = None ∧ pending (rolled_back s2) = [].
Proof.
  eexists _, _. split; [vm_compute; reflexivity |].
  apply (proj1 failed_mutation_is_reported_and_rolled_back).
  vm_compute. reflexivity.
Defined.

Lemma row_of_ext cls (d1 d2 : gmap string value) :
  (∀ k, k ∈ column_names cls → d1 !! k = d2 !! k) → row_of cls d1 = row_of cls d2.
Proof.
  intros H. unfold row_of. f_equal. apply list_fmap_ext.
  intros i k Hi. f_equal. f_equal. apply H. by eapply list_elem_of_lookup_2.
Qed.

(** ** Listing: query constraints, failures, pages *)

(** X1: the constraints of the route's query parameters, [page >= 1] and
    [1 <= limit <= 100], are enforced before the handler: a request
    outside them is refused as a validation error and the session is not
    touched. *)
Theorem GET_weather_refuses_out_of_range (page limit : Z) (s : Session) :
  page < 1 ∨ limit < 1 ∨ 100 < limit →
  ∃ bad, GET_weather (Some page) (Some limit) s = (Raise (RequestValidationError bad), s)
         ∧ status (GET_weather (Some page) (Some limit) s).1 = 422.
Proof.
  intros Hout. unfold GET_weather, Query. cbn [default from_option].
  repeat case_bool_decide; unfold id in *; cbn [andb]; try lia;
    eexists; split; reflexivity.
Qed.

Lemma GET_weather_refuses_out_of_range_witness :
  ∃ bad, GET_weather (Some 1) (Some 101) (fresh [row_14h])
         = (Raise (RequestValidationError bad), fresh [row_14h])
         ∧ status (GET_weather (Some 1) (Some 101) (fresh [row_14h])).1 = 422.
Proof. apply GET_weather_refuses_out_of_range. lia. Defined.

(** Within the constraints the route hands the parameters to the
    handler unchanged, and a request without parameters is page 1 with
    limit 10. *)
Theorem GET_weather_passes_parameters (page limit : Z) (s : Session) :
  1 ≤ page → 1 ≤ limit ≤ 100 →
  GET_weather (Some page) (Some limit) s = list_weather page limit s
  ∧ GET_weather None (Some limit) s = list_weather 1 limit s
  ∧ GET_weather (Some page) None s = list_weather page 10 s
  ∧ GET_weather None None s = list_weather 1 10 s.
Proof.
  intros Hp [Hl1 Hl2]. unfold GET_weather, Query. cbn [default from_option].
  unfold id. rewrite !bool_decide_eq_true_2 by lia. done.
Qed.

Lemma GET_weather_passes_parameters_witness :
  GET_weather (Some 2) (Some 5) (fresh [row_14h]) = list_weather 2 5 (fresh [row_14h])
  ∧ GET_weather None (Some 5) (fresh [row_14h]) = list_weather 1 5 (fresh [row_14h])
  ∧ GET_weather (Some 2) None (fresh [row_14h]) = list_weather 2 10 (fresh [row_14h])
  ∧ GET_weather None None (fresh [row_14h]) = list_weather 1 10 (fresh [row_14h]).
Proof. apply GET_weather_passes_parameters; lia. Defined.

Lemma query_page_cases col offset limit s :
  (∃ recs s', query_page col offset limit s = (Ok recs, s') ∧ table s' = table s)
  ∨ (∃ e s', query_page col offset limit s = (Raise e, s')
             ∧ is_HTTPException e = false ∧ table s' = table s).
Proof.
  unfold query_page, flush.
  destruct (flush_changes_cases (pending s) s eq_refl)
    as [(s1 & Hflush & Ht & _) | (e & s1 & Hflush & He & Ht)].
  2:{ right. exists e, s1. split; [| done].
      erewrite bind_raise; [reflexivity |]. by rewrite bind_gets. }
  erewrite bind_ok; [| by rewrite bind_gets].
  destruct (execute_cases s1) as [(s2 & Hexec & Ht2 & _) | (m & s2 & Hexec & Ht2 & _)].
  - erewrite bind_ok by exact Hexec. rewrite bind_gets.
    destruct (binds (engine s2) offset && binds (engine s2) limit).
    + left. eexists _, s2. rewrite bind_gets. split; [reflexivity | congruence].
    + right. eexists _, s2. split; [reflexivity | split; [done | congruence]].
  - right. exists (OperationalError m), s2.
    split; [by erewrite bind_raise | split; [done | congruence]].
Qed.

(** X2: whatever the session holds and however the database answers,
    list leaves the committed table as it was, and when it fails the
    caller gets a 500 whose detail carries the text of the cause. *)
Theorem list_weather_reads_only (page limit : Z) (s : Session) :
  ∃ r s', list_weather page limit s = (r, s')
          ∧ table s' = table s
          ∧ ∀ e, r = Raise e →
                 ∃ cause, e = HTTPException 500 ("Internal server error: " +:+ str cause).
Proof.
  unfold list_weather, try_except. rewrite bind_lift, Weather_collection_time_found.
  destruct (query_page_cases
              (mkColumn "collection_time" (DateTime true) true false)
              ((page - 1) * limit) limit s)
    as [(recs & s1 & Hq & Ht) | (e0 & s1 & Hq & He & Ht)].
  - erewrite bind_ok by exact Hq. eexists _, _. split; [reflexivity |].
    split; [done |]. intros e [=].
  - erewrite bind_raise by exact Hq. eexists _, _. split; [reflexivity |].
    split; [done |]. intros e [= <-]. by eexists.
Qed.

(** X3: when the database refuses the SELECT with message [m], list
    answers 500 with [m] embedded after the fixed prefix, on every
    engine. *)
Theorem list_weather_reports_database_failure
    (eng : Engine) (page limit : Z) (rows : list Row) (m : string)
    (rest : list (option string)) :
  list_weather page limit (session eng rows (Some m :: rest))
  = (Raise (HTTPException 500 ("Internal server error: " +:+ m)),
     session eng rows rest).
Proof. reflexivity. Qed.

Lemma pages_concat {A B} (f : A → B) (xs : list A) (size n : nat) :
  mjoin ((λ p : nat, f <$> take size (drop (p * size) xs)) <$> seq 0 n)
  = f <$> take (n * size) xs.
Proof.
  induction n as [|n IH]; [done |].
  rewrite seq_S, fmap_app, join_app, IH. cbn.
  rewrite app_nil_r, <- fmap_app, take_take_drop. do 2 f_equal. lia.
Qed.

(** X4: on an engine that binds [limit] and the offsets of the pages 1
    to [n], reading these pages of size [limit] one after the other gives
    exactly the first [n * limit] rows of the descending order: no row is
    skipped and none comes twice. *)
Theorem list_weather_pages_tile
    (eng : Engine) (limit : Z) (n : nat) (rows : list Row) :
  1 ≤ limit → binds eng limit = true →
  (∀ p : nat, (p < n)%nat → binds eng (Z.of_nat p * limit) = true) →
  ∃ sorted,
    Sorted (λ r1 r2, instant (pk r2) ≤ instant (pk r1)) sorted ∧ sorted ≡ₚ rows
    ∧ mjoin ((λ p : nat,
                response_rows
                  (list_weather (Z.of_nat (S p)) limit (session eng rows [])).1)
             <$> seq 0 n)
      = serialize_sqlalchemy_obj ∘ load <$> take (n * Z.to_nat limit) sorted.
Proof.
  intros Hlimit Hbl Hbo.
  set (col := mkColumn "collection_time" (DateTime true) true false).
  exists (merge_sort (desc col) rows).
  split; [exact (Sorted_merge_sort (desc col) rows) |].
  split; [apply merge_sort_Permutation |].
  rewrite <- pages_concat. f_equal. apply list_fmap_ext. intros i p Hi.
  apply lookup_seq in Hi as [-> Hlt].
  assert (Hoff : (Z.of_nat (S (0 + i)) - 1) * limit = Z.of_nat (0 + i) * limit) by lia.
  rewrite list_weather_session; [| rewrite Hoff; by apply Hbo | done].
  cbn [fst response_rows]. do 3 f_equal. nia.
Qed.

Lemma list_weather_pages_tile_witness :
  ∃ sorted,
    Sorted (λ r1 r2, instant (pk r2) ≤ instant (pk r1)) sorted ∧ sorted ≡ₚ [row_14h]
    ∧ mjoin ((λ p : nat,
                response_rows
                  (list_weather (Z.of_nat (S p)) 10 (session engine_64 [row_14h] [])).1)
             <$> seq 0 3)
      = serialize_sqlalchemy_obj ∘ load <$> take (3 * Z.to_nat 10) sorted.
Proof.
  apply (list_weather_pages_tile engine_64 10 3 [row_14h]).
  - lia.
  - reflexivity.
  - intros [|[|[|p]]] Hp; [reflexivity | reflexivity | reflexivity | lia].
Defined.

(** ** Creating a record: duplicates and database failures *)

Lemma create_record_duplicate_key eng body weather_data clock rows r :
  Schema.model_validate body = Ok weather_data →
  store_row eng Weather (list_to_map (Schema.field_values weather_data)) = Some r →
  pk r ∈ pk <$> rows →
  create_record weather_data clock (session eng rows [])
  = (Raise (HTTPException 500
              ("Internal server error: "
               +:+ complaint eng (Insert (new_record_dict weather_data clock)))),
     session eng rows []).
Proof.
  intros Hwf%validated_well_formed Hr Hdup.
  rewrite create_record_unfold. unfold try_except, session.
  cbn [table txn pending faults engine app].
  assert (Hrow := new_record_dict_row weather_data clock Hwf).
  assert (Hcommit :
    commit {| table := rows; txn := None;
              pending := [Insert (new_record_dict weather_data clock)];
              faults := []; engine := eng |}
    = (Raise (IntegrityError (complaint eng (Insert (new_record_dict weather_data clock)))),
       {| table := rows; txn := None;
          pending := [Insert (new_record_dict weather_data clock)];
          faults := []; engine := eng |})).
  { run. cbn [engine].
    erewrite apply_insert_duplicate; [reflexivity | by rewrite Hrow | done]. }
  erewrite bind_raise by exact Hcommit. reflexivity.
Qed.

(** X5: creating an observation whose [collection_time], as the engine
    holds it, is already stored fails on the primary key: the answer is a
    500 whose detail is the engine's complaint about the INSERT, and the
    session is rolled back with the table as it was. *)
Theorem create_record_refuses_duplicate eng body weather_data clock rows r :
  Schema.model_validate body = Ok weather_data →
  store_row eng Weather (list_to_map (Schema.field_values weather_data)) = Some r →
  pk r ∈ pk <$> rows →
  create_record weather_data clock (session eng rows [])
  = (Raise (HTTPException 500
              ("Internal server error: "
               +:+ complaint eng (Insert (new_record_dict weather_data clock)))),
     session eng rows []).
Proof. apply create_record_duplicate_key. Qed.

Lemma create_record_refuses_duplicate_witness :
  create_record observation_14h clock_15h (session engine_64 [row_14h] [])
  = (Raise (HTTPException 500
              ("Internal server error: "
               +:+ complaint engine_64 (Insert (new_record_dict observation_14h clock_15h)))),
     session engine_64 [row_14h] []).
Proof.
  apply (create_record_refuses_duplicate engine_64 body_14h _ _ _ row_14h).
  - vm_compute. reflexivity.
  - vm_compute. reflexivity.
  - apply list_elem_of_singleton. reflexivity.
Defined.

(** X6: when the database refuses the INSERT with message [m], create
    answers 500 with [m] embedded, rolls back, and the table is as it
    was, whatever the input and the engine. *)
Theorem create_record_reports_database_failure eng weather_data clock rows m rest :
  create_record weather_data clock (session eng rows (Some m :: rest))
  = (Raise (HTTPException 500 ("Internal server error: " +:+ m)), session eng rows rest).
Proof. rewrite create_record_unfold. reflexivity. Qed.

(** X7: the handler reads the new row back after the commit, inside the
    same [try]: when the INSERT and the COMMIT are carried out and that
    last SELECT fails, create answers 500 although the row is stored;
    the rollback that follows has nothing left to undo. *)
Theorem create_record_may_fail_after_commit eng body weather_data clock rows r m :
  Schema.model_validate body = Ok weather_data →
  store_row eng Weather (list_to_map (Schema.field_values weather_data)) = Some r →
  pk r ∉ pk <$> rows →
  create_record weather_data clock (session eng rows [None; None; Some m])
  = (Raise (HTTPException 500 ("Internal server error: " +:+ m)),
     session eng (rows ++ [r]) []).
Proof.
  intros Hwf%validated_well_formed Hr Hnew.
  rewrite create_record_unfold. unfold try_except, session.
  cbn [table txn pending faults engine app].
  assert (Hrow := new_record_dict_row weather_data clock Hwf).
  erewrite bind_ok.
  2:{ eapply commit_single_insert_answered, apply_insert; [by rewrite Hrow | done]. }
  reflexivity.
Qed.

Lemma create_record_may_fail_after_commit_witness :
  create_record observation_14h clock_15h
    (session engine_64 [] [None; None; Some "connection lost"])
  = (Raise (HTTPException 500 ("Internal server error: " +:+ "connection lost")),
     session engine_64 ([] ++ [row_14h]) []).
Proof.
  apply (create_record_may_fail_after_commit engine_64 body_14h).
  - vm_compute. reflexivity.
  - vm_compute. reflexivity.
  - cbn. apply not_elem_of_nil.
Defined.

(** ** Creating a record: how it composes *)

(** X8: create is not repeatable: once an observation is stored, sending
    the same request again answers 500 with the engine's complaint about
    the second INSERT, and the table keeps the single row of the first
    request. *)
Theorem create_record_twice eng body weather_data clock clock' rows r :
  Schema.model_validate body = Ok weather_data →
  store_row eng Weather (list_to_map (Schema.field_values weather_data)) = Some r →
  pk r ∉ pk <$> rows →
  create_record weather_data clock'
    (create_record weather_data clock (session eng rows [])).2
  = (Raise (HTTPException 500
              ("Internal server error: "
               +:+ complaint eng (Insert (new_record_dict weather_data clock')))),
     session eng (rows ++ [r]) []).
Proof.
  intros Hvalid Hr Hnew. erewrite create_record_stores by done. cbn [snd].
  eapply create_record_duplicate_key; [done | done |].
  rewrite fmap_app. apply elem_of_app. right. apply list_elem_of_singleton.
  reflexivity.
Qed.

Lemma create_record_twice_witness :
  create_record observation_14h clock_15h
    (create_record observation_14h clock_15h (session engine_64 [] [])).2
  = (Raise (HTTPException 500
              ("Internal server error: "
               +:+ complaint engine_64 (Insert (new_record_dict observation_14h clock_15h)))),
     session engine_64 ([] ++ [row_14h]) []).
Proof.
  apply (create_record_twice engine_64 body_14h).
  - vm_compute. reflexivity.
  - vm_compute. reflexivity.
  - cbn. apply not_elem_of_nil.
Defined.

(** X9: a created observation is listed: after a successful create, on
    an engine that binds offset 0 and [limit], the first page, when it is
    long enough to hold the table, contains the created row exactly as
    create returned it. *)
Theorem created_record_is_listed eng body weather_data clock rows r (limit : Z) :
  Schema.model_validate body = Ok weather_data →
  store_row eng Weather (list_to_map (Schema.field_values weather_data)) = Some r →
  pk r ∉ pk <$> rows →
  binds eng 0 = true → binds eng limit = true →
  Z.of_nat (length rows) < limit →
  ∃ d, (create_record weather_data clock (session eng rows [])).1 = Ok d
       ∧ d ∈ response_rows
               (list_weather 1 limit
                  (create_record weather_data clock (session eng rows [])).2).1.
Proof.
  intros Hvalid Hr Hnew Hb0 Hbl Hlen. erewrite create_record_stores by done.
  cbn [fst snd]. eexists. split; [reflexivity |].
  rewrite list_weather_session by done. cbn [fst response_rows].
  change (Z.to_nat ((1 - 1) * limit)) with 0%nat. rewrite drop_0, take_ge.
  2:{ rewrite (Permutation_length (merge_sort_Permutation _ _)), length_app. cbn. lia. }
  apply (list_elem_of_fmap_2 (serialize_sqlalchemy_obj ∘ load)).
  rewrite merge_sort_Permutation. apply elem_of_app. right. apply list_elem_of_singleton.
  reflexivity.
Qed.

Lemma created_record_is_listed_witness :
  ∃ d, (create_record observation_14h clock_15h (session engine_64 [] [])).1 = Ok d
       ∧ d ∈ response_rows
               (list_weather 1 10
                  (create_record observation_14h clock_15h (session engine_64 [] [])).2).1.
Proof.
  apply (created_record_is_listed engine_64 body_14h _ _ _ row_14h).
  - vm_compute. reflexivity.
  - vm_compute. reflexivity.
  - cbn. apply not_elem_of_nil.
  - reflexivity.
  - reflexivity.
  - cbn. lia.
Defined.

(** ** The merge step of a full update *)

Lemma model_dump_all m : Schema.model_dump false m = Schema.field_values m.
Proof. reflexivity. Qed.

(** X11: the merge step of full-update assigns every field of the schema:
    whatever the record held, afterwards its nine column attributes are
    the input's field values, [None] for each field the request omitted,
    and its other attributes are untouched. *)
Theorem full_update_merge_assigns_every_field body weather_data record s :
  Schema.model_validate body = Ok weather_data →
  ∃ record' s',
    setattr_items record (Schema.model_dump false weather_data) s = (Ok record', s')
    ∧ serialize_sqlalchemy_obj record' = Schema.field_values weather_data
    ∧ (∀ k v, (k, v) ∈ Schema.field_values weather_data →
              k ∉ Schema.model_fields_set weather_data → getattr record' k = VNone)
    ∧ (∀ k, k ∉ column_names Weather → __dict__ record' !! k = __dict__ record !! k).
Proof.
  intros [_ Hdef]%validated_well_formed.
  destruct (setattr_items_assigns record (Schema.model_dump false weather_data) s)
    as (s' & Hrun & _).
  eexists _, s'. split; [exact Hrun |]. rewrite model_dump_all.
  assert (Hread : ∀ k v, (k, v) ∈ Schema.field_values weather_data →
            default VNone (foldl assign (__dict__ record)
                             (Schema.field_values weather_data) !! k) = v).
  { intros k v Hin. by erewrite assign_lookup; [| apply field_values_NoDup |]. }
  repeat split.
  - unfold serialize_sqlalchemy_obj, getattr. cbn [__dict__].
    etrans; [| by apply columns_read].
    unfold column_names. by rewrite <- list_fmap_compose.
  - intros k v Hin Hunset. unfold getattr. cbn [__dict__]. rewrite (Hread k v Hin).
    rewrite Forall_forall in Hdef. by destruct (Hdef _ Hin).
  - intros k Hk. cbn [__dict__]. apply assign_lookup_other.
    by rewrite field_values_keys.
Qed.

Lemma full_update_merge_assigns_every_field_witness :
  ∃ record' s',
    setattr_items (load row_14h) (Schema.model_dump false humidity_60_at_14h)
                  (fresh [row_14h]) = (Ok record', s')
    ∧ serialize_sqlalchemy_obj record' = Schema.field_values humidity_60_at_14h
    ∧ (∀ k v, (k, v) ∈ Schema.field_values humidity_60_at_14h →
              k ∉ Schema.model_fields_set humidity_60_at_14h → getattr record' k = VNone)
    ∧ (∀ k, k ∉ column_names Weather →
            __dict__ record' !! k = __dict__ (load row_14h) !! k).
Proof.
  apply (full_update_merge_assigns_every_field body_14h_humidity).
  vm_compute. reflexivity.
Defined.

(** ** Serialization and stored rows *)

(** X12: serialization reads column attributes only: assigning an
    attribute that is not a column, as create does with [create_date]
    and [update_date], never changes what is serialized, nor the row
    that is written for the instance. *)
Theorem plain_attributes_are_not_serialized obj k v :
  k ∉ column_names Weather →
  serialize_sqlalchemy_obj (set_attribute obj k v) = serialize_sqlalchemy_obj obj
  ∧ row_of Weather (__dict__ (set_attribute obj k v)) = row_of Weather (__dict__ obj).
Proof.
  intros Hk.
  assert (Hother : ∀ c, c ∈ column_names Weather →
            <[k := v]> (__dict__ obj) !! c = __dict__ obj !! c).
  { intros c Hc. apply lookup_insert_ne. by intros ->. }
  split.
  - unfold serialize_sqlalchemy_obj, getattr, set_attribute. cbn [__dict__].
    apply list_fmap_ext. intros i c Hc. do 2 f_equal. apply Hother.
    apply (list_elem_of_fmap_2 name). by eapply list_elem_of_lookup_2.
  - by apply row_of_ext.
Qed.

Lemma plain_attributes_are_not_serialized_witness :
  serialize_sqlalchemy_obj (set_attribute (load row_14h) "create_date" (VDateTime t_14h))
  = serialize_sqlalchemy_obj (load row_14h)
  ∧ row_of Weather (__dict__ (set_attribute (load row_14h) "create_date" (VDateTime t_14h)))
    = row_of Weather (__dict__ (load row_14h)).
Proof.
  apply plain_attributes_are_not_serialized.
  apply (bool_decide_eq_false_1 _). vm_compute. reflexivity.
Defined.


(** X13: a stored row and its serialization determine each other: the
    serialization of a loaded row, read as a map, is the row. *)
Theorem serialize_load_round_trip (d : gmap string value) :
  list_to_map (serialize_sqlalchemy_obj (load (row_of Weather d))) = row_of Weather d.
Proof.
  unfold row_of at 2. f_equal.
Qed.

(** X14: list shows stored rows only: on every engine, every row of a
    page is the serialization of a row of the table. *)
Theorem listed_rows_are_stored eng page limit rows d :
  d ∈ response_rows (list_weather page limit (session eng rows [])).1 →
  ∃ r, r ∈ rows ∧ d = serialize_sqlalchemy_obj (load r).
Proof.
  destruct (binds eng ((page - 1) * limit) && binds eng limit) eqn:Hbinds.
  2:{ rewrite list_weather_unbound by done. cbn [fst response_rows].
      by intros ?%elem_of_nil. }
  apply andb_true_iff in Hbinds as [Hbo Hbl].
  rewrite list_weather_session by done. cbn [fst response_rows].
  intros (r & -> & Hin)%list_elem_of_fmap. exists r. split; [| done].
  rewrite <- (merge_sort_Permutation
                (desc (mkColumn "collection_time" (DateTime true) true false)) rows).
  eapply elem_of_sublist; [| apply sublist_drop].
  eapply elem_of_sublist; [exact Hin | apply sublist_take].
Qed.

Lemma listed_rows_are_stored_witness :
  ∃ r, r ∈ [row_14h] ∧ Schema.field_values observation_14h = serialize_sqlalchemy_obj (load r).
Proof.
  apply (listed_rows_are_stored engine_64 1 10 [row_14h]).
  apply (bool_decide_unpack _). vm_compute. exact I.
Defined.

(** ** Request bodies *)

Lemma collection_time_required body :
  body !! "collection_time" = None ∨ body !! "collection_time" = Some VNone →
  ∃ bad, Schema.model_validate body = Raise (RequestValidationError bad)
         ∧ "collection_time" ∈ bad.
Proof.
  intros Hct.
  assert (Hbad : Is_true (negb (Schema.field_ok Schema.datetime_
                                  (body !! "collection_time")))).
  { by destruct Hct as [-> | ->]. }
  unfold Schema.model_validate.
  destruct (filter _ Schema.model_fields) as [|b bs] eqn:Hfilter.
  - exfalso.
    eapply (filter_nil_not_elem_of _ _ ("collection_time", Schema.datetime_) Hfilter);
      [exact Hbad | set_solver].
  - eexists. split; [reflexivity |]. rewrite <- Hfilter.
    apply (list_elem_of_fmap_2 fst _ ("collection_time", Schema.datetime_)).
    apply list_elem_of_filter. split; [exact Hbad | set_solver].
Qed.

(** X15: POST, PUT and PATCH share the schema, whose [collection_time]
    has no default and is not [Optional]: a body in which it is missing
    or null is refused by each of the three routes as a validation error
    naming the field, before the handler runs; the session is not
    touched. *)
Theorem routes_require_collection_time id body clock s :
  body !! "collection_time" = None ∨ body !! "collection_time" = Some VNone →
  ∃ bad, "collection_time" ∈ bad
    ∧ POST_weather body clock s = (Raise (RequestValidationError bad), s)
    ∧ PUT_weather_id id body clock s = (Raise (RequestValidationError bad), s)
    ∧ PATCH_weather_id id body clock s = (Raise (RequestValidationError bad), s).
Proof.
  intros Hct. destruct (collection_time_required body Hct) as (bad & Hbad & Hin).
  exists bad. split; [done |].
  unfold POST_weather, PUT_weather_id, PATCH_weather_id.
  rewrite !bind_lift, Hbad. done.
Qed.

Lemma routes_require_collection_time_witness :
  ∃ bad, "collection_time" ∈ bad
    ∧ POST_weather body_humidity clock_15h (fresh [])
      = (Raise (RequestValidationError bad), fresh [])
    ∧ PUT_weather_id 1 body_humidity clock_15h (fresh [])
      = (Raise (RequestValidationError bad), fresh [])
    ∧ PATCH_weather_id 1 body_humidity clock_15h (fresh [])
      = (Raise (RequestValidationError bad), fresh []).
Proof.
  apply routes_require_collection_time.
  left. vm_compute. reflexivity.
Defined.
